(** * airline_agent: the tool invocation resolver and the two airline tools

    Shallow embedding of [src/airline_agent/main.py]:
    - [AirlineAgentContext], the session state shared by every tool call;
    - the tool bodies [faq_lookup_tool] and [update_seat];
    - [safe_invoke_tool], the resolver that probes a tool object for a calling
      convention (direct call, [run], [execute], [on_invoke_tool], wrapped
      function) and normalises coroutine results;
    - the request loop of [main].

    Python objects are modelled by the inductive [value]; a tool object by its
    attribute table; a call by a function over the shared context that either
    raises, returns a value or returns a coroutine.  Strings are sequences of
    ASCII characters ([str.lower] is modelled on ASCII letters). *)

From Stdlib Require Import String Ascii List ZArith Bool Lia.
From Stdlib Require Import DecimalString.
Import ListNotations.
Local Open Scope string_scope.
Local Open Scope list_scope.

(* ------------------------------------------------------------------ *)
(** ** Strings as Python uses them here *)

Module PyStr.

(** [k in q] on [str]: [k] occurs in [q] as a contiguous run. *)
Fixpoint contains (k q : string) : bool :=
  if String.prefix k q then true
  else match q with
       | EmptyString => false
       | String _ q' => contains k q'
       end.

Definition lower_ascii (c : ascii) : ascii :=
  let n := nat_of_ascii c in
  if andb (Nat.leb 65 n) (Nat.leb n 90) then ascii_of_nat (n + 32) else c.

(** [s.lower()] *)
Fixpoint lower (s : string) : string :=
  match s with
  | EmptyString => EmptyString
  | String c s' => String (lower_ascii c) (lower s')
  end.

(** [any(k in q for k in ks)] *)
Definition any_in (ks : list string) (q : string) : bool :=
  existsb (fun k => contains k q) ks.

(** [sep.join(parts)] *)
Fixpoint join (sep : string) (parts : list string) : string :=
  match parts with
  | [] => ""
  | [p] => p
  | p :: rest => p ++ sep ++ join sep rest
  end.

(** [str(n)] for an [int] *)
Definition of_int (n : Z) : string := NilZero.string_of_int (Z.to_int n).

End PyStr.

(* ------------------------------------------------------------------ *)
(** ** The context model (section 3 of the source) *)

Record AirlineAgentContext := mkContext {
  passenger_name : option string;
  confirmation_number : option string;
  seat_number : option string;
  flight_number : option string
}.

(** [AirlineAgentContext()] : every field starts as [None]. *)
Definition new_context : AirlineAgentContext :=
  mkContext None None None None.

(* ------------------------------------------------------------------ *)
(** ** The tools (section 4 of the source) *)

Definition baggage_answer : string :=
  "You are allowed to bring one bag on the plane. It must be under 50 pounds "
  ++ "and 22 inches x 14 inches x 9 inches.".

Definition seats_answer : string :=
  "There are 120 seats on the plane. There are 22 business class seats and 98 economy seats. "
  ++ "Exit rows are rows 4 and 16. Rows 5-8 are Economy Plus, with extra legroom.".

Definition wifi_answer : string :=
  "We have free wifi on the plane, join Airline-Wifi".

Definition unknown_answer : string :=
  "I'm sorry, I don't know the answer to that question".

(** The body of [faq_lookup_tool]: it receives the question only and has no
    access to the context. *)
Definition faq_answer (question : string) : string :=
  let q := PyStr.lower question in
  if PyStr.any_in ["baggage"; "luggage"; "carry-on"; "bag"; "weight"] q then
    baggage_answer
  else if PyStr.any_in ["seat"; "seats"; "seating"; "economy"; "business"; "exit row"] q then
    seats_answer
  else if PyStr.any_in ["wifi"; "internet"; "connectivity"; "network"] q then
    wifi_answer
  else unknown_answer.

(** [faq_lookup_tool] as a step of the session: the answer, and the context
    as it was. *)
Definition faq_lookup_tool (question : string) (ctx : AirlineAgentContext)
  : string * AirlineAgentContext :=
  (faq_answer question, ctx).

(** [f"FLT-{random.randint(100,999)}"], [rnd] being the number drawn. *)
Definition generated_flight (rnd : Z) : string := "FLT-" ++ PyStr.of_int rnd.

(** The message [update_seat] returns. *)
Definition seat_message (new_seat confirmation flight : string) : string :=
  "Updated seat to " ++ new_seat ++ " for confirmation number " ++ confirmation
  ++ " on flight " ++ flight.

(** [f"{x}"] of an optional string field. *)
Definition fmt_opt (o : option string) : string :=
  match o with Some s => s | None => "None" end.

(** The body of [update_seat], on the context that [context.context] denotes.
    [rnd] is the value [random.randint(100, 999)] yields if it is called. *)
Definition update_seat (rnd : Z) (confirmation new_seat : string)
    (ctx : AirlineAgentContext) : string * AirlineAgentContext :=
  let ctx1 :=
    match flight_number ctx with
    | None => mkContext (passenger_name ctx) (confirmation_number ctx)
                        (seat_number ctx) (Some (generated_flight rnd))
    | Some _ => ctx
    end in
  let ctx2 := mkContext (passenger_name ctx1) (Some confirmation)
                        (seat_number ctx1) (flight_number ctx1) in
  let ctx3 := mkContext (passenger_name ctx2) (confirmation_number ctx2)
                        (Some new_seat) (flight_number ctx2) in
  (seat_message new_seat confirmation (fmt_opt (flight_number ctx3)), ctx3).

(* ------------------------------------------------------------------ *)
(** ** Python objects, exceptions and callables *)

(** The objects that travel through the resolver. *)
#[warnings="-register-all"]
Inductive value :=
| VNone
| VStr (s : string)
| VInt (z : Z)
| VDict (items : list (string * value))     (* a dict, in insertion order *)
| VRunCtx                                   (* the session's [RunContextWrapper] *)
| VDummyToolCtx (run_ctx : value)           (* [_DummyToolCtx(run_ctx)] *)
| VJson (items : list (string * value))     (* the text [json.dumps(items)] *)
| VObject (id : nat)                        (* any other object *)
| VPending (result : value).                (* a Future, a Task or another
                                               object with [__await__] that
                                               is no coroutine; awaiting it
                                               would give [result] *)

(** Keyword arguments and payloads are dicts with string keys. *)
Definition dict := list (string * value).

(** Instances of [Exception]. *)
Inductive exn :=
| UnboundLocalError (var : string)
| AttributeError (msg : string)
| TypeError (msg : string)
| OtherException (cls msg : string).

(** Awaiting a coroutine runs it on the shared context: it raises or
    completes with a value. *)
Definition coroutine : Type :=
  AirlineAgentContext -> (exn + value) * AirlineAgentContext.

(** What a call hands back when it does not raise. *)
Inductive returned :=
| RValue (v : value)
| RCoroutine (co : coroutine).

(** A callable: [accepts] is the binding of the arguments against the
    declared signature (a call that does not bind raises [TypeError] before
    the body runs), [body] is what the call then does. *)
Record pycallable := mkCallable {
  accepts : list value -> dict -> bool;
  body : list value -> dict -> AirlineAgentContext
         -> (exn + returned) * AirlineAgentContext
}.

Inductive attr :=
| ACallable (c : pycallable)
| AValue (v : value).

(** A tool object: whether it is itself callable, and its attribute table,
    in the order [dir] reports the names. *)
Record tool := mkTool {
  tool_call : option pycallable;
  tool_attrs : list (string * attr)
}.

Module Py.

Definition isinstance_RunContextWrapper (v : value) : bool :=
  match v with VRunCtx => true | _ => false end.

Definition isinstance_str (v : value) : bool :=
  match v with VStr _ | VJson _ => true | _ => false end.

Definition is_None (v : value) : bool :=
  match v with VNone => true | _ => false end.

(** Truth value of an object. *)
Definition truthy (v : value) : bool :=
  match v with
  | VNone => false
  | VStr s => negb (String.eqb s "")
  | VInt z => negb (Z.eqb z 0)
  | VDict items => match items with [] => false | _ => true end
  | _ => true
  end.

(** [d.get(k)] *)
Fixpoint dict_get {A : Type} (k : string) (d : list (string * A)) : option A :=
  match d with
  | [] => None
  | (k', v) :: d' => if String.eqb k k' then Some v else dict_get k d'
  end.

(** [d[k] = v]: an existing key keeps its place, a new key goes last. *)
Fixpoint dict_set {A : Type} (k : string) (v : A) (d : list (string * A))
  : list (string * A) :=
  match d with
  | [] => [(k, v)]
  | (k', v') :: d' =>
      if String.eqb k k' then (k, v) :: d' else (k', v') :: dict_set k v d'
  end.

(** [k in keys] *)
Definition key_in (k : string) (keys : list string) : bool :=
  existsb (String.eqb k) keys.

(** [hasattr(o, name)] and [getattr(o, name)] *)
Definition getattr (o : tool) (name : string) : option attr :=
  dict_get name (tool_attrs o).

(** [hasattr(o, name) and callable(getattr(o, name))] *)
Definition callable_attr (o : tool) (name : string) : option pycallable :=
  match getattr o name with
  | Some (ACallable c) => Some c
  | _ => None
  end.

(** [dir(o)] *)
Definition dir (o : tool) : list string := map fst (tool_attrs o).

(** Whether [json.dumps] accepts the object. *)
Fixpoint json_serializable (v : value) : bool :=
  match v with
  | VNone | VStr _ | VInt _ | VJson _ => true
  | VDict items =>
      (fix all (l : list (string * value)) : bool :=
         match l with
         | [] => true
         | (_, x) :: l' => json_serializable x && all l'
         end) items
  | VRunCtx | VDummyToolCtx _ | VObject _ | VPending _ => false
  end.

End Py.

(* ------------------------------------------------------------------ *)
(** ** Effects: shared context, exceptions, and the record of calls made *)

(** The places a call can go to. *)
Inductive slot :=
| SDirect
| SRun
| SExecute
| SOnInvoke
| SUnderlying (attr_name : string).

(** One call made by the resolver, with the arguments it passed. *)
Record call_event := Called {
  ev_slot : slot;
  ev_args : list value;
  ev_kwargs : dict
}.

(** A computation reads and writes the shared context, raises or yields,
    and records the calls it made, oldest first. *)
Definition M (A : Type) : Type :=
  AirlineAgentContext -> (exn + A) * AirlineAgentContext * list call_event.

Definition ret {A} (a : A) : M A := fun ctx => (inr a, ctx, []).

Definition raise {A} (e : exn) : M A := fun ctx => (inl e, ctx, []).

Definition bind {A B} (m : M A) (k : A -> M B) : M B :=
  fun ctx =>
    match m ctx with
    | (inl e, ctx1, t1) => (inl e, ctx1, t1)
    | (inr a, ctx1, t1) =>
        let '(r, ctx2, t2) := k a ctx1 in (r, ctx2, t1 ++ t2)
    end.

(** [try: m  except Exception as e: h e].  What [m] did to the context
    before it raised stays done. *)
Definition try_except {A} (m : M A) (h : exn -> M A) : M A :=
  fun ctx =>
    match m ctx with
    | (inl e, ctx1, t1) =>
        let '(r, ctx2, t2) := h e ctx1 in (r, ctx2, t1 ++ t2)
    | (inr a, ctx1, t1) => (inr a, ctx1, t1)
    end.

Declare Scope py_scope.
Delimit Scope py_scope with py.
Notation "x <~ m ;; k" := (bind m (fun x => k))
  (at level 61, m at next level, right associativity) : py_scope.
Local Open Scope py_scope.

(** The call of [c] on [args] and [kwargs]: bind the arguments, run the
    body. *)
Definition call (sl : slot) (c : pycallable) (args : list value) (kwargs : dict)
  : M returned :=
  fun ctx =>
    if accepts c args kwargs then
      let '(r, ctx1) := body c args kwargs ctx in (r, ctx1, [Called sl args kwargs])
    else (inl (TypeError "arguments do not match the signature"), ctx,
          [Called sl args kwargs]).

(** [await co] *)
Definition await (co : coroutine) : M value :=
  fun ctx => let '(r, ctx1) := co ctx in (r, ctx1, []).

(** [if asyncio.iscoroutine(res): return await res] then [return res] *)
Definition normalize (res : returned) : M value :=
  match res with
  | RValue v => ret v
  | RCoroutine co => await co
  end.

(** The call of [c] followed by the normalisation of what it hands back. *)
Definition call_and_normalize (sl : slot) (c : pycallable)
    (args : list value) (kwargs : dict) : M value :=
  res <~ call sl c args kwargs ;; normalize res.

(* ------------------------------------------------------------------ *)
(** ** The invocation helper (section 5 of the source) *)

(** [[a for a in args if not isinstance(a, RunContextWrapper)]] *)
Definition filtered_args (args : list value) : list value :=
  filter (fun a => negb (Py.isinstance_RunContextWrapper a)) args.

(** The first [RunContextWrapper] among [args], [None] without one. *)
Fixpoint run_ctx_arg (args : list value) : value :=
  match args with
  | [] => VNone
  | a :: rest => if Py.isinstance_RunContextWrapper a then a else run_ctx_arg rest
  end.

(** [for i, val in enumerate(vals): if i < len(names): payload[names[i]] = val],
    counting from [i]. *)
Fixpoint assign_positional (names : list string) (i : nat) (vals : list value)
    (payload : dict) : dict :=
  match vals with
  | [] => payload
  | val :: rest =>
      assign_positional names (S i) rest
        (match nth_error names i with
         | Some k => Py.dict_set k val payload
         | None => payload
         end)
  end.

(** [for k, v in kwargs.items(): if k in keys: payload[k] = v] *)
Fixpoint assign_matching (keys : list string) (kwargs : dict) (payload : dict)
  : dict :=
  match kwargs with
  | [] => payload
  | (k, v) :: rest =>
      assign_matching keys rest
        (if Py.key_in k keys then Py.dict_set k v payload else payload)
  end.

(** The payload built from the keys of the schema's properties. *)
Definition payload_from_schema (keys : list string) (args : list value)
    (kwargs : dict) : dict :=
  assign_matching keys kwargs (assign_positional keys 0 (filtered_args args) []).

Definition common_param_names : list string :=
  ["confirmation_number"; "new_seat"; "seat"; "query"; "question"; "input"].

(** The payload built without a usable schema. *)
Definition payload_heuristic (args : list value) : dict :=
  match args with
  | [a] =>
      if Py.isinstance_str a then
        Py.dict_set "input" a (Py.dict_set "query" a (Py.dict_set "question" a []))
      else assign_positional common_param_names 0 (filtered_args args) []
  | _ => assign_positional common_param_names 0 (filtered_args args) []
  end.

(** [schema = getattr(tool_obj, "params_json_schema", None)] when it passes
    [schema and isinstance(schema, dict)]. *)
Definition usable_schema (tool_obj : tool) : option dict :=
  match Py.getattr tool_obj "params_json_schema" with
  | Some (AValue (VDict (item :: items))) => Some (item :: items)
  | _ => None
  end.

(** [props = schema.get("properties") or {}] then [keys = list(props.keys())];
    a truthy [properties] that is no dict has no [keys]. *)
Definition schema_keys (schema : dict) : exn + list string :=
  match Py.dict_get "properties" schema with
  | None => inr []
  | Some (VDict props) => inr (map fst props)
  | Some v =>
      if Py.truthy v then inl (AttributeError "object has no attribute 'keys'")
      else inr []
  end.

(** Lines 122-152: the payload for [on_invoke_tool]. *)
Definition build_payload (tool_obj : tool) (args : list value) (kwargs : dict)
  : exn + dict :=
  match usable_schema tool_obj with
  | Some schema =>
      match schema_keys schema with
      | inl e => inl e
      | inr keys => inr (payload_from_schema keys args kwargs)
      end
  | None => inr (payload_heuristic args)
  end.

(** One entry of [positional_attempts]: a call of [on_invoke], or the call
    whose second argument is [json.dumps(payload)]. *)
Inductive attempt :=
| AttemptCall (args : list value) (kwargs : dict)
| AttemptJson (holder : value) (payload : dict).

(** Lines 164-195: the attempts, in the order they are appended. *)
Definition positional_attempts (args : list value) (payload : dict)
  : list attempt :=
  let ctx_arg := run_ctx_arg args in
  let filtered := filtered_args args in
  [ AttemptJson (VDummyToolCtx ctx_arg) payload;
    AttemptCall [VDummyToolCtx ctx_arg; VDict payload] [] ]
  ++ (match filtered with
      | [a] => if Py.isinstance_str a then [AttemptCall [a] []] else []
      | _ => []
      end)
  ++ [ AttemptCall args []; AttemptCall filtered [] ]
  ++ (if Py.is_None ctx_arg then []
      else [ AttemptCall (filtered ++ [ctx_arg]) [];
             AttemptCall (ctx_arg :: filtered) [];
             AttemptCall [ctx_arg] [] ])
  ++ [ AttemptCall [] payload ].

(** [attempt_fn()] *)
Definition run_attempt (on_invoke : pycallable) (a : attempt) : M returned :=
  match a with
  | AttemptCall args kwargs => call SOnInvoke on_invoke args kwargs
  | AttemptJson holder payload =>
      if Py.json_serializable (VDict payload)
      then call SOnInvoke on_invoke [holder; VJson payload] []
      else raise (TypeError "Object is not JSON serializable")
  end.

(** How one turn of the loop of lines 206-218 ends. *)
Inductive attempt_outcome :=
| Won (v : value)              (* [return] *)
| ReturnedNone                 (* [continue], [last_exc] as it was *)
| Failed (e : exn).            (* [last_exc = e; continue] *)

(** The body of the [try] of lines 207-218 for one attempt. *)
Definition try_attempt (on_invoke : pycallable) (a : attempt)
  : M attempt_outcome :=
  try_except
    (result <~ run_attempt on_invoke a ;;
     match result with
     | RValue VNone => ret ReturnedNone
     | RValue v => ret (Won v)
     | RCoroutine co => v <~ await co ;; ret (Won v)
     end)
    (fun e => ret (Failed e)).

(** The loop of lines 206-218: the value returned, or [last_exc] when the
    attempts are used up. *)
Fixpoint run_attempts (on_invoke : pycallable) (attempts : list attempt)
    (last_exc : option exn) : M (value + option exn) :=
  match attempts with
  | [] => ret (inr last_exc)
  | a :: rest =>
      o <~ try_attempt on_invoke a ;;
      match o with
      | Won v => ret (inl v)
      | ReturnedNone => run_attempts on_invoke rest last_exc
      | Failed e => run_attempts on_invoke rest (Some e)
      end
  end.

Definition underlying_attrs : list string :=
  ["func"; "function"; "__wrapped__"; "_func"; "_wrapped"].

Definition unsupported_shape_message (tool_obj : tool) : string :=
  "Tool object is not directly callable and no recognized invocation method found. "
  ++ "Available attributes: " ++ PyStr.join ", " (Py.dir tool_obj).

(** The error of lines 234-237. *)
Definition UnsupportedToolShape (tool_obj : tool) : exn :=
  AttributeError (unsupported_shape_message tool_obj).

(** Lines 224-237: the first of [attrs] that is a callable attribute is
    called; without one the error listing [dir(tool_obj)] is raised. *)
Fixpoint call_underlying (tool_obj : tool) (attrs : list string)
    (args : list value) (kwargs : dict) : M value :=
  match attrs with
  | [] => raise (UnsupportedToolShape tool_obj)
  | name :: rest =>
      match Py.callable_attr tool_obj name with
      | Some underlying =>
          call_and_normalize (SUnderlying name) underlying args kwargs
      | None => call_underlying tool_obj rest args kwargs
      end
  end.

(** Line 221 onwards.  [last_exc] is the local variable of that name:
    [None] when no assignment to it was executed. *)
Definition after_on_invoke (tool_obj : tool) (last_exc : option (option exn))
    (args : list value) (kwargs : dict) : M value :=
  match last_exc with
  | None => raise (UnboundLocalError "last_exc")
  | Some _ => call_underlying tool_obj underlying_attrs args kwargs
  end.

(** Lines 93-101: [Some v] when the direct call returned [v], [None] when
    the tool is not callable or the call raised. *)
Definition direct_call (tool_obj : tool) (args : list value) (kwargs : dict)
  : M (option value) :=
  try_except
    (match tool_call tool_obj with
     | Some c => v <~ call_and_normalize SDirect c args kwargs ;; ret (Some v)
     | None => ret None
     end)
    (fun _ => ret None).

(** Lines 118-221: the [on_invoke_tool] block and what follows it. *)
Definition on_invoke_block (tool_obj : tool) (args : list value) (kwargs : dict)
  : M value :=
  match Py.callable_attr tool_obj "on_invoke_tool" with
  | Some on_invoke =>
      match build_payload tool_obj args kwargs with
      | inl e => raise e
      | inr payload =>
          r <~ run_attempts on_invoke (positional_attempts args payload) None ;;
          match r with
          | inl v => ret v
          | inr last_exc => after_on_invoke tool_obj (Some last_exc) args kwargs
          end
      end
  | None => after_on_invoke tool_obj None args kwargs
  end.

(** Lines 103-115 and onwards: what follows the direct call. *)
Definition named_methods (tool_obj : tool) (args : list value) (kwargs : dict)
  : M value :=
  match Py.callable_attr tool_obj "run" with
  | Some run => call_and_normalize SRun run args kwargs
  | None =>
      match Py.callable_attr tool_obj "execute" with
      | Some execute => call_and_normalize SExecute execute args kwargs
      | None => on_invoke_block tool_obj args kwargs
      end
  end.

Definition safe_invoke_tool (tool_obj : tool) (args : list value) (kwargs : dict)
  : M value :=
  d <~ direct_call tool_obj args kwargs ;;
  match d with
  | Some v => ret v
  | None => named_methods tool_obj args kwargs
  end.

(* ------------------------------------------------------------------ *)
(** ** The request loop (section 7 of the source) *)

(** What the loop prints for one request after the user's line. *)
Inductive console_line :=
| SeatAgentSays (resp : value)
| FaqAgentSays (resp : value)
| ErrorReported (e : exn).

Definition seat_keywords : list string :=
  ["seat"; "change my seat"; "seat change"].

(** The body of the [try] of lines 298-308.  The two tools are the objects
    the decorator [function_tool] made of [update_seat] and
    [faq_lookup_tool]; their shape is what [safe_invoke_tool] probes. *)
Definition handle_request (seat_tool faq_tool : tool) (q : string)
  : M console_line :=
  if PyStr.any_in seat_keywords (PyStr.lower q) then
    resp <~ safe_invoke_tool seat_tool [VRunCtx; VStr "ABC123"; VStr "12A"] [] ;;
    ret (SeatAgentSays resp)
  else
    resp <~ safe_invoke_tool faq_tool [VStr q] [] ;;
    ret (FaqAgentSays resp).

(** One turn of the loop of lines 297-313. *)
Definition guarded_request (seat_tool faq_tool : tool) (q : string)
  : M console_line :=
  try_except (handle_request seat_tool faq_tool q)
             (fun e => ret (ErrorReported e)).

(** The loop of lines 297-313 over the queries. *)
Fixpoint request_loop (seat_tool faq_tool : tool) (queries : list string)
  : M (list console_line) :=
  match queries with
  | [] => ret []
  | q :: rest =>
      line <~ guarded_request seat_tool faq_tool q ;;
      lines <~ request_loop seat_tool faq_tool rest ;;
      ret (line :: lines)
  end.

Definition example_queries : list string :=
  ["What's the baggage policy?"; "I want to change my seat"; "Do you have Wi-Fi?"].

(** [main]: the loop over the example queries on a fresh context. *)
Definition main (seat_tool faq_tool : tool)
  : (exn + list console_line) * AirlineAgentContext * list call_event :=
  request_loop seat_tool faq_tool example_queries new_context.

(* ------------------------------------------------------------------ *)
(** ** What a callable does, said without the resolver *)

(** [produces c args kwargs ctx v ctx']: called on [args], [kwargs] in
    context [ctx], the callable yields [v], at once or as a coroutine that
    completes with [v], and leaves the context [ctx']. *)
Inductive produces (c : pycallable) (args : list value) (kwargs : dict)
    (ctx : AirlineAgentContext) : value -> AirlineAgentContext -> Prop :=
| produces_sync v ctx' :
    accepts c args kwargs = true ->
    body c args kwargs ctx = (inr (RValue v), ctx') ->
    produces c args kwargs ctx v ctx'
| produces_async co ctx1 v ctx' :
    accepts c args kwargs = true ->
    body c args kwargs ctx = (inr (RCoroutine co), ctx1) ->
    co ctx1 = (inr v, ctx') ->
    produces c args kwargs ctx v ctx'.

(** [throws c args kwargs ctx e ctx']: the call raises [e], when binding the
    arguments, in the body, or when its coroutine is awaited. *)
Inductive throws (c : pycallable) (args : list value) (kwargs : dict)
    (ctx : AirlineAgentContext) : exn -> AirlineAgentContext -> Prop :=
| throws_binding :
    accepts c args kwargs = false ->
    throws c args kwargs ctx
           (TypeError "arguments do not match the signature") ctx
| throws_body e ctx' :
    accepts c args kwargs = true ->
    body c args kwargs ctx = (inl e, ctx') ->
    throws c args kwargs ctx e ctx'
| throws_await co ctx1 e ctx' :
    accepts c args kwargs = true ->
    body c args kwargs ctx = (inr (RCoroutine co), ctx1) ->
    co ctx1 = (inl e, ctx') ->
    throws c args kwargs ctx e ctx'.

(** The direct call of lines 93-101 gives no result: the tool is not
    callable, or the call raised. *)
Inductive direct_yields_nothing (tool_obj : tool) (args : list value)
    (kwargs : dict) (ctx : AirlineAgentContext)
  : AirlineAgentContext -> list call_event -> Prop :=
| direct_not_callable :
    tool_call tool_obj = None ->
    direct_yields_nothing tool_obj args kwargs ctx ctx []
| direct_raised c e ctx1 :
    tool_call tool_obj = Some c ->
    throws c args kwargs ctx e ctx1 ->
    direct_yields_nothing tool_obj args kwargs ctx ctx1
                          [Called SDirect args kwargs].


(** The attempts of a list were all discarded, one after the other, each on
    the context its predecessor left: [last_exc] goes from [le] to [le'], the
    context from [ctx] to [ctx'], and [t] are the calls made. *)
Inductive all_discarded (on_invoke : pycallable)
  : list attempt -> option exn -> AirlineAgentContext
    -> option exn -> AirlineAgentContext -> list call_event -> Prop :=
| discarded_nil le ctx :
    all_discarded on_invoke [] le ctx le ctx []
| discarded_none a rest le ctx ctx1 t1 le' ctx' t :
    try_attempt on_invoke a ctx = (inr ReturnedNone, ctx1, t1) ->
    all_discarded on_invoke rest le ctx1 le' ctx' t ->
    all_discarded on_invoke (a :: rest) le ctx le' ctx' (t1 ++ t)
| discarded_failed a rest le e ctx ctx1 t1 le' ctx' t :
    try_attempt on_invoke a ctx = (inr (Failed e), ctx1, t1) ->
    all_discarded on_invoke rest (Some e) ctx1 le' ctx' t ->
    all_discarded on_invoke (a :: rest) le ctx le' ctx' (t1 ++ t).

(** None of the five calling conventions is on offer. *)
Definition exposes_no_axis (tool_obj : tool) : bool :=
  match tool_call tool_obj with Some _ => false | None => true end
  && forallb (fun name =>
                match Py.callable_attr tool_obj name with
                | Some _ => false
                | None => true
                end)
             ("run" :: "execute" :: "on_invoke_tool" :: underlying_attrs).

(** The direct call as the specification words it: the context goes to the
    callable only if the declared signature takes the arguments with it. *)
Definition direct_call_context_only_if_accepted : Prop :=
  forall tool_obj c args kwargs ctx r ctx' ev t,
    tool_call tool_obj = Some c ->
    safe_invoke_tool tool_obj args kwargs ctx = (r, ctx', ev :: t) ->
    ev_slot ev = SDirect ->
    In VRunCtx (ev_args ev) ->
    accepts c (ev_args ev) (ev_kwargs ev) = true.

(** What a call gives once whatever suspended result it hands back has been
    awaited: a plain value as it is, a coroutine run to its end, a pending
    Future or Task run to its result. *)
Inductive completes_with (c : pycallable) (args : list value) (kwargs : dict)
    (ctx : AirlineAgentContext) : value -> AirlineAgentContext -> Prop :=
| completes_value v ctx' :
    accepts c args kwargs = true ->
    body c args kwargs ctx = (inr (RValue v), ctx') ->
    (forall w, v <> VPending w) ->
    completes_with c args kwargs ctx v ctx'
| completes_coroutine co ctx1 v ctx' :
    accepts c args kwargs = true ->
    body c args kwargs ctx = (inr (RCoroutine co), ctx1) ->
    co ctx1 = (inr v, ctx') ->
    completes_with c args kwargs ctx v ctx'
| completes_pending w ctx' :
    accepts c args kwargs = true ->
    body c args kwargs ctx = (inr (RValue (VPending w)), ctx') ->
    completes_with c args kwargs ctx w ctx'.

(** The tool is callable and offers no other calling convention. *)
Definition exposes_only_direct_call (tool_obj : tool) : bool :=
  match tool_call tool_obj with Some _ => true | None => false end
  && forallb (fun name =>
                match Py.callable_attr tool_obj name with
                | Some _ => false
                | None => true
                end)
             ("run" :: "execute" :: "on_invoke_tool" :: underlying_attrs).

(** The direct call as the specification words it: every suspended result
    is awaited before it is returned. *)
Definition direct_call_result_always_awaited : Prop :=
  forall tool_obj c args kwargs ctx v ctx',
    tool_call tool_obj = Some c ->
    exposes_only_direct_call tool_obj = true ->
    completes_with c args kwargs ctx v ctx' ->
    safe_invoke_tool tool_obj args kwargs ctx
    = (inr v, ctx', [Called SDirect args kwargs]).

(** Dispatch isolation as the specification words it: when the second of
    three requests fails, the context at the end is the one that the first
    and the third alone produce. *)
Definition failed_request_leaves_no_trace_in_context : Prop :=
  forall seat_tool faq_tool q1 q2 q3 ctx0 l1 ctx1 t1 e ctx2 t2 l3 ctx3 t3,
    handle_request seat_tool faq_tool q1 ctx0 = (inr l1, ctx1, t1) ->
    handle_request seat_tool faq_tool q2 ctx1 = (inl e, ctx2, t2) ->
    handle_request seat_tool faq_tool q3 ctx2 = (inr l3, ctx3, t3) ->
    exists lines ctx' t t',
      request_loop seat_tool faq_tool [q1; q2; q3] ctx0 = (inr lines, ctx', t)
      /\ request_loop seat_tool faq_tool [q1; q3] ctx0 = (inr [l1; l3], ctx', t').

(* ------------------------------------------------------------------ *)
(** ** Sample tool objects *)

Module Samples.

Definition any_arguments : list value -> dict -> bool := fun _ _ => true.

(** A function that takes any arguments and returns [v]. *)
Definition returning (v : value) : pycallable :=
  mkCallable any_arguments (fun _ _ ctx => (inr (RValue v), ctx)).

(** A coroutine function that takes any arguments and completes with [v]. *)
Definition async_returning (v : value) : pycallable :=
  mkCallable any_arguments
             (fun _ _ ctx => (inr (RCoroutine (fun ctx1 => (inr v, ctx1))), ctx)).

(** A function that takes any arguments and raises [e]. *)
Definition raising (e : exn) : pycallable :=
  mkCallable any_arguments (fun _ _ ctx => (inl e, ctx)).

(** [def f(question): return faq answer]: one positional parameter, no
    parameter for a context. *)
Definition question_only : pycallable :=
  mkCallable
    (fun args kwargs =>
       match args, kwargs with
       | [_], [] => true
       | _, _ => false
       end)
    (fun args _ ctx =>
       match args with
       | [VStr q] => (inr (RValue (VStr (faq_answer q))), ctx)
       | _ => (inl (AttributeError "object has no attribute 'lower'"), ctx)
       end).

(** An object with a [name] and nothing to call. *)
Definition opaque_tool : tool :=
  mkTool None [("name", AValue (VStr "update_seat"))].

(** An object that only wraps a function under [func]. *)
Definition wrapper_tool : tool :=
  mkTool None [("func", ACallable (returning (VStr "seat updated")));
               ("name", AValue (VStr "update_seat"))].

(** A callable object and nothing else. *)
Definition plain_callable_tool : tool :=
  mkTool (Some (async_returning (VStr "hello"))) [].

(** A callable object that hands back a pending Future, as a plain function
    that schedules a task does. *)
Definition future_tool : tool :=
  mkTool (Some (returning (VPending (VStr "hello")))) [].

(** Callable, and with a [run] method; both raise. *)
Definition failing_run_tool : tool :=
  mkTool (Some (raising (TypeError "not this way")))
         [("run", ACallable (raising (OtherException "RuntimeError" "run failed")));
          ("execute", ACallable (returning (VStr "from execute")));
          ("func", ACallable (returning (VStr "from func")))].

(** Callable, raising, with a [run] method that answers. *)
Definition direct_fails_run_works_tool : tool :=
  mkTool (Some (raising (TypeError "not this way")))
         [("run", ACallable (async_returning (VStr "from run")));
          ("execute", ACallable (returning (VStr "from execute")))].

(** A FAQ function that takes the question only, on an object that also has
    [run]. *)
Definition question_only_tool : tool :=
  mkTool (Some question_only)
         [("run", ACallable (returning (VStr "from run")))].

(** [on_invoke_tool] is a coroutine function that completes with [None]
    when its second argument is JSON text and answers otherwise. *)
Definition json_shy_on_invoke : pycallable :=
  mkCallable any_arguments
    (fun args _ ctx =>
       match args with
       | [_; VJson _] => (inr (RCoroutine (fun ctx1 => (inr VNone, ctx1))), ctx)
       | _ => (inr (RCoroutine (fun ctx1 => (inr (VStr "done"), ctx1))), ctx)
       end).

Definition json_shy_tool : tool :=
  mkTool None [("on_invoke_tool", ACallable json_shy_on_invoke)].

(** The same functions without [async]. *)
Definition json_shy_sync_on_invoke : pycallable :=
  mkCallable any_arguments
    (fun args _ ctx =>
       match args with
       | [_; VJson _] => (inr (RValue VNone), ctx)
       | _ => (inr (RValue (VStr "done")), ctx)
       end).

Definition json_shy_sync_tool : tool :=
  mkTool None [("on_invoke_tool", ACallable json_shy_sync_on_invoke)].

(** A tool with a schema of two parameters. *)
Definition two_parameter_tool : tool :=
  mkTool None
    [("on_invoke_tool", ACallable (returning (VStr "ok")));
     ("params_json_schema",
      AValue (VDict [("type", VStr "object");
                     ("properties",
                      VDict [("confirmation_number", VDict [("type", VStr "string")]);
                             ("new_seat", VDict [("type", VStr "string")])])]))].

(** A FAQ tool that is a plain callable over [faq_answer]. *)
Definition faq_tool : tool := mkTool (Some question_only) [].

(** A seat tool whose [on_invoke_tool] writes the seat into the context and
    returns nothing. *)
Definition write_then_nothing : pycallable :=
  mkCallable any_arguments
    (fun _ _ ctx =>
       (inr (RValue VNone),
        mkContext (passenger_name ctx) (confirmation_number ctx)
                  (Some "12A") (flight_number ctx))).

Definition broken_seat_tool : tool :=
  mkTool None [("on_invoke_tool", ACallable write_then_nothing)].

End Samples.

From Stdlib Require DecimalPos DecimalZ.

(* ------------------------------------------------------------------ *)
(** ** Sessions with several seat updates, and tools that keep an invariant *)

(** One call of [update_seat]: the number [random.randint] would draw, the
    confirmation number and the seat. *)
Definition seat_request : Type := (Z * string * string)%type.

(** The context after the calls of [update_seat] of a session, in order. *)
Definition seat_updates (reqs : list seat_request) (ctx : AirlineAgentContext)
  : AirlineAgentContext :=
  fold_left (fun c '(rnd, confirmation, new_seat) =>
               snd (update_seat rnd confirmation new_seat c))
            reqs ctx.

(** The callable keeps the property [I] of the context: in its body and in
    the coroutine it hands back, which the resolver awaits at once. *)
Definition callable_keeps (I : AirlineAgentContext -> Prop) (c : pycallable)
  : Prop :=
  forall args kwargs ctx,
    I ctx ->
    match body c args kwargs ctx with
    | (inr (RCoroutine co), ctx1) => I ctx1 /\ I (snd (co ctx1))
    | (_, ctx1) => I ctx1
    end.

(** Everything callable on the tool keeps [I]. *)
Definition tool_keeps (I : AirlineAgentContext -> Prop) (tool_obj : tool)
  : Prop :=
  (forall c, tool_call tool_obj = Some c -> callable_keeps I c)
  /\ (forall name c,
        Py.callable_attr tool_obj name = Some c -> callable_keeps I c).

(** The flight number is [FLT-] and three more characters. *)
Definition three_digits (rnd : Z) : bool :=
  Nat.eqb (String.length (generated_flight rnd)) 7
  && String.prefix "FLT-" (generated_flight rnd).

(** [len(filtered_args) == 1 and isinstance(filtered_args[0], str)] *)
Definition single_string (vals : list value) : bool :=
  match vals with
  | [a] => Py.isinstance_str a
  | _ => false
  end.

(** Some argument is a [RunContextWrapper]. *)
Definition has_run_ctx (args : list value) : bool :=
  existsb Py.isinstance_RunContextWrapper args.

Module MoreSamples.

(** A function that takes any arguments and leaves the result to others. *)
Definition rejecting : pycallable :=
  mkCallable (fun _ _ => false) (fun _ _ ctx => (inr (RValue VNone), ctx)).

(** A tool whose [run] is a plain attribute and whose [execute] answers. *)
Definition run_is_data_tool : tool :=
  mkTool None [("run", AValue (VInt 3));
               ("execute", ACallable (Samples.returning (VStr "from execute")))].

(** [on_invoke_tool] takes no call; [func] is data, [function] answers. *)
Definition second_wrapper_tool : tool :=
  mkTool None [("on_invoke_tool", ACallable rejecting);
               ("func", AValue (VStr "not a function"));
               ("function", ACallable (Samples.async_returning (VStr "inner")))].


(** [on_invoke_tool] takes no call; the wrapped function raises. *)
Definition failing_wrapper_tool : tool :=
  mkTool None [("on_invoke_tool", ACallable rejecting);
               ("func", ACallable (Samples.raising (OtherException "ValueError" "bad seat")))].

(** A schema that has no [properties]. *)
Definition schema_without_properties_tool : tool :=
  mkTool None [("on_invoke_tool", ACallable (Samples.returning (VStr "ok")));
               ("params_json_schema", AValue (VDict [("type", VStr "object")]))].


(** [on_invoke_tool] without a schema. *)
Definition schemaless_tool : tool :=
  mkTool None [("on_invoke_tool", ACallable (Samples.returning (VStr "ok")))].

(** [on_invoke_tool] answers a dict as second argument and nothing else. *)
Definition dict_only_on_invoke : pycallable :=
  mkCallable
    (fun args kwargs =>
       match args, kwargs with
       | [_; VDict _], [] => true
       | _, _ => false
       end)
    (fun _ _ ctx => (inr (RValue (VStr "took the dict")), ctx)).

Definition dict_only_tool : tool :=
  mkTool None [("on_invoke_tool", ACallable dict_only_on_invoke);
               ("params_json_schema",
                AValue (VDict [("properties",
                                VDict [("handle", VDict [])])]))].

(** A seat tool over [update_seat]: [run] takes the context, the
    confirmation number and the seat. *)
Definition seat_run (rnd : Z) : pycallable :=
  mkCallable
    (fun args kwargs =>
       match args, kwargs with
       | [VRunCtx; VStr _; VStr _], [] => true
       | _, _ => false
       end)
    (fun args _ ctx =>
       match args with
       | [VRunCtx; VStr c; VStr s] =>
           let '(msg, ctx') := update_seat rnd c s ctx in
           (inr (RValue (VStr msg)), ctx')
       | _ => (inl (TypeError "bad arguments"), ctx)
       end).

Definition seat_run_tool (rnd : Z) : tool :=
  mkTool None [("run", ACallable (seat_run rnd))].

End MoreSamples.

(** The computation keeps the property [I] of the context, whether it
    raises or not. *)
Definition keeps {A} (I : AirlineAgentContext -> Prop) (m : M A) : Prop :=
  forall ctx r ctx' t, I ctx -> m ctx = (r, ctx', t) -> I ctx'.
(* ------------------------------------------------------------------ *)
(** * Properties *)

(** ** Strings *)

Local Open Scope string_scope.

Lemma prefix_app (k s : string) : String.prefix k (k ++ s) = true.
Proof.
  induction k as [|a k IH]; simpl.
  - now destruct s.
  - destruct (ascii_dec a a) as [_|ne]; [exact IH | now elim ne].
Qed.

Lemma contains_unfold (k q : string) :
  PyStr.contains k q =
  if String.prefix k q then true
  else match q with
       | EmptyString => false
       | String _ q' => PyStr.contains k q'
       end.
Proof. destruct q; reflexivity. Qed.

Lemma contains_here (k s : string) : PyStr.contains k (k ++ s) = true.
Proof. rewrite contains_unfold, prefix_app. reflexivity. Qed.

Lemma contains_app (p k s : string) : PyStr.contains k (p ++ k ++ s) = true.
Proof.
  induction p as [|a p IH].
  - simpl. apply contains_here.
  - change (String a p ++ k ++ s) with (String a (p ++ k ++ s)).
    rewrite contains_unfold, IH.
    now destruct (String.prefix k (String a (p ++ k ++ s))).
Qed.

Lemma contains_end (p k : string) : PyStr.contains k (p ++ k) = true.
Proof.
  replace (p ++ k) with (p ++ k ++ "").
  - apply contains_app.
  - f_equal. induction k; simpl; congruence.
Qed.

Lemma string_app_assoc (a b c : string) : (a ++ b) ++ c = a ++ b ++ c.
Proof. induction a; simpl; congruence. Qed.

(** ** The seat-update tool *)

Lemma seat_message_has_seat (s c f : string) :
  PyStr.contains s (seat_message s c f) = true.
Proof. unfold seat_message. apply contains_app. Qed.

Lemma seat_message_has_confirmation (s c f : string) :
  PyStr.contains c (seat_message s c f) = true.
Proof.
  unfold seat_message.
  rewrite <- (string_app_assoc "Updated seat to " s), <- string_app_assoc.
  apply contains_app.
Qed.

Lemma seat_message_has_flight (s c f : string) :
  PyStr.contains f (seat_message s c f) = true.
Proof.
  unfold seat_message.
  rewrite <- (string_app_assoc "Updated seat to " s), <- string_app_assoc,
          <- string_app_assoc, <- string_app_assoc.
  apply contains_end.
Qed.

Lemma update_seat_context (rnd : Z) (c s : string) (ctx : AirlineAgentContext) :
  snd (update_seat rnd c s ctx) =
  mkContext (passenger_name ctx) (Some c) (Some s)
            (match flight_number ctx with
             | Some f => Some f
             | None => Some (generated_flight rnd)
             end).
Proof. unfold update_seat. destruct ctx as [p cn sn [f|]]; reflexivity. Qed.

(** C10.  Whatever the context, [update_seat] leaves [passenger_name] as it
    was, leaves a [flight_number] that is already set as it was and generates
    one only when it was [None], and otherwise writes [confirmation_number]
    and [seat_number] only: the four fields after the call are determined as
    stated. *)
Theorem update_seat_frame (rnd : Z) (c s : string) (ctx : AirlineAgentContext) :
  let ctx' := snd (update_seat rnd c s ctx) in
  passenger_name ctx' = passenger_name ctx
  /\ flight_number ctx' =
       match flight_number ctx with
       | Some f => Some f
       | None => Some (generated_flight rnd)
       end
  /\ confirmation_number ctx' = Some c
  /\ seat_number ctx' = Some s
  /\ ctx' = mkContext (passenger_name ctx) (Some c) (Some s) (flight_number ctx').
Proof.
  cbv zeta. rewrite update_seat_context. simpl. repeat split.
Qed.

(** C8.  On a context with every field unset, the seat update for
    confirmation ABC123 and seat 12A sets [confirmation_number] and
    [seat_number] to these, sets [flight_number] to a generated (non-null)
    number, and returns a message in which all three occur; an FAQ request
    that follows in the session leaves the flight number as set. *)
Theorem seat_update_scenario (rnd : Z) (question : string) :
  let '(msg, ctx1) := update_seat rnd "ABC123" "12A" new_context in
  let '(_, ctx2) := faq_lookup_tool question ctx1 in
  confirmation_number ctx1 = Some "ABC123"
  /\ seat_number ctx1 = Some "12A"
  /\ flight_number ctx1 = Some (generated_flight rnd)
  /\ flight_number ctx1 <> None
  /\ PyStr.contains "ABC123" msg = true
  /\ PyStr.contains "12A" msg = true
  /\ PyStr.contains (generated_flight rnd) msg = true
  /\ flight_number ctx2 = flight_number ctx1
  /\ ctx2 = ctx1.
Proof.
  destruct (update_seat rnd "ABC123" "12A" new_context) as [msg ctx1] eqn:E.
  unfold update_seat, new_context in E.
  cbn [flight_number passenger_name confirmation_number seat_number fmt_opt] in E.
  injection E as <- <-.
  unfold faq_lookup_tool.
  cbn [flight_number passenger_name confirmation_number seat_number].
  split; [reflexivity|]. split; [reflexivity|]. split; [reflexivity|].
  split; [discriminate|].
  split; [apply seat_message_has_confirmation|].
  split; [apply seat_message_has_seat|].
  split; [apply seat_message_has_flight|].
  split; reflexivity.
Qed.

(** ** Calls *)

Local Open Scope list_scope.

Lemma call_and_normalize_produces sl c args kwargs ctx v ctx' :
  produces c args kwargs ctx v ctx' ->
  call_and_normalize sl c args kwargs ctx = (inr v, ctx', [Called sl args kwargs]).
Proof.
  intros H. unfold call_and_normalize, bind, call, normalize, await, ret.
  destruct H as [v ctx' Ha Hb | co ctx1 v ctx' Ha Hb Hc];
    rewrite Ha, Hb; [reflexivity | rewrite Hc; reflexivity].
Qed.

Lemma call_and_normalize_throws sl c args kwargs ctx e ctx' :
  throws c args kwargs ctx e ctx' ->
  call_and_normalize sl c args kwargs ctx = (inl e, ctx', [Called sl args kwargs]).
Proof.
  intros H. unfold call_and_normalize, bind, call, normalize, await, ret.
  destruct H as [Ha | e ctx' Ha Hb | co ctx1 e ctx' Ha Hb Hc];
    rewrite Ha; try rewrite Hb; try rewrite Hc; reflexivity.
Qed.

(** Every call ends in one of the two ways. *)
Lemma produces_or_throws c args kwargs ctx :
  (exists v ctx', produces c args kwargs ctx v ctx')
  \/ (exists e ctx', throws c args kwargs ctx e ctx').
Proof.
  destruct (accepts c args kwargs) eqn:Ha.
  - destruct (body c args kwargs ctx) as [[e | [v | co]] ctx1] eqn:Hb.
    + right. exists e, ctx1. now apply throws_body.
    + left. exists v, ctx1. now apply produces_sync.
    + destruct (co ctx1) as [[e | v] ctx2] eqn:Hc.
      * right. exists e, ctx2. eapply throws_await; eauto.
      * left. exists v, ctx2. eapply produces_async; eauto.
  - right. eexists _, ctx. now apply throws_binding.
Qed.

Lemma direct_call_produces tool_obj c args kwargs ctx v ctx' :
  tool_call tool_obj = Some c ->
  produces c args kwargs ctx v ctx' ->
  direct_call tool_obj args kwargs ctx
  = (inr (Some v), ctx', [Called SDirect args kwargs]).
Proof.
  intros Hc Hp. unfold direct_call, try_except, bind. rewrite Hc.
  rewrite (call_and_normalize_produces SDirect _ _ _ _ _ _ Hp). reflexivity.
Qed.

Lemma direct_call_nothing tool_obj args kwargs ctx ctx1 t :
  direct_yields_nothing tool_obj args kwargs ctx ctx1 t ->
  direct_call tool_obj args kwargs ctx = (inr None, ctx1, t).
Proof.
  intros [Hn | c e ctx' Hc Ht]; unfold direct_call, try_except, bind.
  - rewrite Hn. reflexivity.
  - rewrite Hc, (call_and_normalize_throws SDirect _ _ _ _ _ _ Ht). reflexivity.
Qed.

(** When the direct call gives nothing, the resolver goes on with the named
    methods, from the context the direct call left. *)
Lemma safe_invoke_tool_after_direct tool_obj args kwargs ctx ctx1 t :
  direct_yields_nothing tool_obj args kwargs ctx ctx1 t ->
  safe_invoke_tool tool_obj args kwargs ctx =
  let '(r, ctx2, t2) := named_methods tool_obj args kwargs ctx1 in
  (r, ctx2, t ++ t2).
Proof.
  intros H. unfold safe_invoke_tool, bind.
  rewrite (direct_call_nothing _ _ _ _ _ _ H). reflexivity.
Qed.

(** ** Direct call *)

(** C5, amended.  When the tool is callable and the call on the caller's
    arguments hands back [v], or a coroutine that completes with [v],
    [safe_invoke_tool] returns exactly [v], leaves the context as the callable
    left it, and the direct call is the only call it made.  The coroutine is
    awaited first; anything else handed back is returned as it is, a pending
    Future or Task included, which is not awaited.  This holds whatever else
    the tool exposes, so in particular for a tool that exposes direct
    callability only. *)
Theorem direct_call_value_returned tool_obj c args kwargs ctx v ctx' :
  tool_call tool_obj = Some c ->
  produces c args kwargs ctx v ctx' ->
  safe_invoke_tool tool_obj args kwargs ctx
  = (inr v, ctx', [Called SDirect args kwargs]).
Proof.
  intros Hc Hp. unfold safe_invoke_tool, bind.
  rewrite (direct_call_produces _ _ _ _ _ _ _ Hc Hp). reflexivity.
Qed.

(** ** Named methods *)

(** C2.  When the tool has a callable [run] and the direct call gave nothing
    (the tool is not callable, or its call raised and was swallowed), an
    exception raised by [run] is the outcome of [safe_invoke_tool]: the calls
    made are the direct one, if any, and [run]; neither [execute],
    [on_invoke_tool] nor a wrapped function is called. *)
Theorem run_failure_propagates tool_obj run args kwargs ctx ctx1 t1 e ctx2 :
  Py.callable_attr tool_obj "run" = Some run ->
  direct_yields_nothing tool_obj args kwargs ctx ctx1 t1 ->
  throws run args kwargs ctx1 e ctx2 ->
  safe_invoke_tool tool_obj args kwargs ctx
  = (inl e, ctx2, t1 ++ [Called SRun args kwargs])
  /\ (t1 = [] \/ t1 = [Called SDirect args kwargs]).
Proof.
  intros Hr Hd Ht. split.
  - rewrite (safe_invoke_tool_after_direct _ _ _ _ _ _ Hd).
    unfold named_methods. rewrite Hr.
    rewrite (call_and_normalize_throws SRun _ _ _ _ _ _ Ht). reflexivity.
  - destruct Hd; auto.
Qed.

Lemma direct_call_value_returned_witness :
  tool_call Samples.plain_callable_tool
  = Some (Samples.async_returning (VStr "hello"))
  /\ produces (Samples.async_returning (VStr "hello")) [VStr "hi"] []
              new_context (VStr "hello") new_context
  /\ safe_invoke_tool Samples.plain_callable_tool [VStr "hi"] [] new_context
     = (inr (VStr "hello"), new_context, [Called SDirect [VStr "hi"] []]).
Proof.
  assert (Hp : produces (Samples.async_returning (VStr "hello")) [VStr "hi"] []
                        new_context (VStr "hello") new_context)
    by (eapply produces_async; reflexivity).
  split; [reflexivity | split; [exact Hp |]].
  exact (direct_call_value_returned Samples.plain_callable_tool _ _ _ _ _ _
           eq_refl Hp).
Defined.

(** C5, as stated, fails: a callable tool that hands back a pending Future
    gets the Future back from [safe_invoke_tool], not awaited, where awaiting
    it first would give its result. *)
Lemma pending_future_returned_unawaited : ~ direct_call_result_always_awaited.
Proof.
  intros H.
  specialize (H Samples.future_tool
                (Samples.returning (VPending (VStr "hello")))
                [VStr "hi"] [] new_context (VStr "hello") new_context
                eq_refl eq_refl).
  assert (Hc : completes_with (Samples.returning (VPending (VStr "hello")))
                              [VStr "hi"] [] new_context (VStr "hello") new_context)
    by (apply completes_pending; reflexivity).
  specialize (H Hc). vm_compute in H. discriminate H.
Qed.

Lemma run_failure_propagates_witness :
  safe_invoke_tool Samples.failing_run_tool [VRunCtx; VStr "ABC123"] [] new_context
  = (inl (OtherException "RuntimeError" "run failed"), new_context,
     [Called SDirect [VRunCtx; VStr "ABC123"] []]
       ++ [Called SRun [VRunCtx; VStr "ABC123"] []])
  /\ ([Called SDirect [VRunCtx; VStr "ABC123"] []] = []
      \/ [Called SDirect [VRunCtx; VStr "ABC123"] []]
         = [Called SDirect [VRunCtx; VStr "ABC123"] []]).
Proof.
  apply (run_failure_propagates Samples.failing_run_tool
           (Samples.raising (OtherException "RuntimeError" "run failed"))
           [VRunCtx; VStr "ABC123"] [] new_context new_context).
  - reflexivity.
  - apply (direct_raised _ _ _ _ (Samples.raising (TypeError "not this way"))
             (TypeError "not this way")); [reflexivity |].
    apply throws_body; reflexivity.
  - apply throws_body; reflexivity.
Defined.

(** ** Exhaustion *)

Lemma no_axis_fields tool_obj :
  exposes_no_axis tool_obj = true ->
  tool_call tool_obj = None
  /\ Py.callable_attr tool_obj "run" = None
  /\ Py.callable_attr tool_obj "execute" = None
  /\ Py.callable_attr tool_obj "on_invoke_tool" = None.
Proof.
  unfold exposes_no_axis. cbn [forallb].
  destruct (tool_call tool_obj); [discriminate |].
  destruct (Py.callable_attr tool_obj "run"); [discriminate |].
  destruct (Py.callable_attr tool_obj "execute"); [discriminate |].
  destruct (Py.callable_attr tool_obj "on_invoke_tool"); [discriminate |].
  auto.
Qed.

(** A tool without [on_invoke_tool], [run], [execute] and direct call never
    reaches the wrapped functions nor the error of lines 234-237: line 221
    reads [last_exc], which no executed statement has assigned. *)
Lemma without_on_invoke_unbound_local tool_obj args kwargs ctx :
  tool_call tool_obj = None ->
  Py.callable_attr tool_obj "run" = None ->
  Py.callable_attr tool_obj "execute" = None ->
  Py.callable_attr tool_obj "on_invoke_tool" = None ->
  safe_invoke_tool tool_obj args kwargs ctx
  = (inl (UnboundLocalError "last_exc"), ctx, []).
Proof.
  intros Hc Hr He Ho.
  rewrite (safe_invoke_tool_after_direct _ _ _ _ _ _
             (direct_not_callable _ _ _ _ Hc)).
  unfold named_methods, on_invoke_block. rewrite Hr, He, Ho. reflexivity.
Qed.

Lemma no_axis_unbound_local tool_obj args kwargs ctx :
  exposes_no_axis tool_obj = true ->
  safe_invoke_tool tool_obj args kwargs ctx
  = (inl (UnboundLocalError "last_exc"), ctx, []).
Proof.
  intros H. destruct (no_axis_fields _ H) as (Hc & Hr & He & Ho).
  now apply without_on_invoke_unbound_local.
Qed.

(** C1, at a tool that offers none of the five conventions (an object with a
    [name] attribute only), called with one string: [safe_invoke_tool] raises
    [UnboundLocalError] for [last_exc], which is not the error of lines
    234-237 that lists the attributes of the tool. *)
Theorem no_axis_tool_raises_unbound_local :
  exposes_no_axis Samples.opaque_tool = true
  /\ safe_invoke_tool Samples.opaque_tool [VStr "hello"] [] new_context
     = (inl (UnboundLocalError "last_exc"), new_context, [])
  /\ UnboundLocalError "last_exc" <> UnsupportedToolShape Samples.opaque_tool.
Proof.
  split; [reflexivity | split; [reflexivity | discriminate]].
Qed.

(** ** Wrapped functions *)

(** C3, at an object that only wraps a function under [func]: the wrapped
    function would answer the caller's arguments, the resolver raises
    [UnboundLocalError] for [last_exc] and calls nothing. *)
Theorem wrapped_function_not_reached :
  Py.callable_attr Samples.wrapper_tool "func"
  = Some (Samples.returning (VStr "seat updated"))
  /\ produces (Samples.returning (VStr "seat updated"))
              [VRunCtx; VStr "ABC123"; VStr "12A"] []
              new_context (VStr "seat updated") new_context
  /\ safe_invoke_tool Samples.wrapper_tool
                      [VRunCtx; VStr "ABC123"; VStr "12A"] [] new_context
     = (inl (UnboundLocalError "last_exc"), new_context, []).
Proof.
  split; [reflexivity | split; [| reflexivity]].
  apply produces_sync; reflexivity.
Qed.

Lemma run_attempts_all_discarded on_invoke attempts le ctx le' ctx' t :
  all_discarded on_invoke attempts le ctx le' ctx' t ->
  run_attempts on_invoke attempts le ctx = (inr (inr le'), ctx', t).
Proof.
  induction 1 as [le ctx | a rest le ctx ctx1 t1 le' ctx' t Ha _ IH
                 | a rest le e ctx ctx1 t1 le' ctx' t Ha _ IH].
  - reflexivity.
  - cbn [run_attempts]. unfold bind. rewrite Ha, IH. reflexivity.
  - cbn [run_attempts]. unfold bind. rewrite Ha, IH. reflexivity.
Qed.

(** The first attempt that is not discarded decides; the attempts after it
    are not made. *)
Lemma run_attempts_first_win on_invoke pre a post le ctx le1 ctx1 t1 v ctx2 t2 :
  all_discarded on_invoke pre le ctx le1 ctx1 t1 ->
  try_attempt on_invoke a ctx1 = (inr (Won v), ctx2, t2) ->
  run_attempts on_invoke (pre ++ a :: post) le ctx = (inr (inl v), ctx2, t1 ++ t2).
Proof.
  intros Hpre Ha.
  induction Hpre as [le ctx | b rest le ctx ctx' t' le' ctx'' t Hb _ IH
                    | b rest le e ctx ctx' t' le' ctx'' t Hb _ IH].
  - cbn [app run_attempts]. unfold bind. rewrite Ha. cbn.
    now rewrite app_nil_r.
  - cbn [app run_attempts]. unfold bind. rewrite Hb, (IH Ha).
    now rewrite app_assoc.
  - cbn [app run_attempts]. unfold bind. rewrite Hb, (IH Ha).
    now rewrite app_assoc.
Qed.

Lemma call_underlying_first tool_obj names name u args kwargs :
  Py.callable_attr tool_obj name = Some u ->
  (forall n, In n names -> Py.callable_attr tool_obj n = None) ->
  forall rest,
    call_underlying tool_obj (names ++ name :: rest) args kwargs
    = call_and_normalize (SUnderlying name) u args kwargs.
Proof.
  intros Hu. induction names as [|n names IH]; intros Hnone rest.
  - cbn. now rewrite Hu.
  - cbn. rewrite (Hnone n (or_introl eq_refl)).
    apply IH. intros m Hm. apply Hnone. now right.
Qed.

(** Where the tool has [on_invoke_tool] and every attempt on it was
    discarded, the first wrapped function found is called with the caller's
    arguments and its normalised result is the result. *)
Lemma unwrap_after_discarded_attempts
    tool_obj on_invoke payload args kwargs ctx ctx1 t1 le ctx2 t2
    names name rest u v ctx3 :
  direct_yields_nothing tool_obj args kwargs ctx ctx1 t1 ->
  Py.callable_attr tool_obj "run" = None ->
  Py.callable_attr tool_obj "execute" = None ->
  Py.callable_attr tool_obj "on_invoke_tool" = Some on_invoke ->
  build_payload tool_obj args kwargs = inr payload ->
  all_discarded on_invoke (positional_attempts args payload) None ctx1 le ctx2 t2 ->
  underlying_attrs = names ++ name :: rest ->
  (forall n, In n names -> Py.callable_attr tool_obj n = None) ->
  Py.callable_attr tool_obj name = Some u ->
  produces u args kwargs ctx2 v ctx3 ->
  safe_invoke_tool tool_obj args kwargs ctx
  = (inr v, ctx3, t1 ++ t2 ++ [Called (SUnderlying name) args kwargs]).
Proof.
  intros Hd Hr He Ho Hp Hall Hsplit Hnone Hu Hprod.
  rewrite (safe_invoke_tool_after_direct _ _ _ _ _ _ Hd).
  unfold named_methods, on_invoke_block. rewrite Hr, He, Ho, Hp.
  unfold bind. rewrite (run_attempts_all_discarded _ _ _ _ _ _ _ Hall).
  unfold after_on_invoke. rewrite Hsplit.
  rewrite (call_underlying_first _ _ _ _ _ _ Hu Hnone).
  rewrite (call_and_normalize_produces _ _ _ _ _ _ _ Hprod). reflexivity.
Qed.

(** ** Order of the strategies *)

(** A callable tool whose call raises, with a [run] that answers: the result
    is the answer of [run], after the direct call and before anything else. *)
Lemma direct_raises_run_answers tool_obj c run args kwargs ctx e ctx1 v ctx2 :
  tool_call tool_obj = Some c ->
  throws c args kwargs ctx e ctx1 ->
  Py.callable_attr tool_obj "run" = Some run ->
  produces run args kwargs ctx1 v ctx2 ->
  safe_invoke_tool tool_obj args kwargs ctx
  = (inr v, ctx2, [Called SDirect args kwargs; Called SRun args kwargs]).
Proof.
  intros Hc Ht Hr Hp.
  rewrite (safe_invoke_tool_after_direct _ _ _ _ _ _
             (direct_raised _ _ _ _ _ _ _ Hc Ht)).
  unfold named_methods. rewrite Hr.
  rewrite (call_and_normalize_produces _ _ _ _ _ _ _ Hp). reflexivity.
Qed.

(** Without [run], [execute] is next, and it is as final as [run]. *)
Lemma execute_after_run tool_obj execute args kwargs ctx ctx1 t1 :
  direct_yields_nothing tool_obj args kwargs ctx ctx1 t1 ->
  Py.callable_attr tool_obj "run" = None ->
  Py.callable_attr tool_obj "execute" = Some execute ->
  safe_invoke_tool tool_obj args kwargs ctx =
  let '(r, ctx2, t2) := call_and_normalize SExecute execute args kwargs ctx1 in
  (r, ctx2, t1 ++ t2).
Proof.
  intros Hd Hr He.
  rewrite (safe_invoke_tool_after_direct _ _ _ _ _ _ Hd).
  unfold named_methods. now rewrite Hr, He.
Qed.

(** Without [run] and [execute], the attempts on [on_invoke_tool] are next;
    the first that is not discarded gives the result and ends the call. *)
Lemma on_invoke_after_named_methods
    tool_obj on_invoke payload args kwargs ctx ctx1 t1
    pre a post le ctx2 t2 v ctx3 t3 :
  direct_yields_nothing tool_obj args kwargs ctx ctx1 t1 ->
  Py.callable_attr tool_obj "run" = None ->
  Py.callable_attr tool_obj "execute" = None ->
  Py.callable_attr tool_obj "on_invoke_tool" = Some on_invoke ->
  build_payload tool_obj args kwargs = inr payload ->
  positional_attempts args payload = pre ++ a :: post ->
  all_discarded on_invoke pre None ctx1 le ctx2 t2 ->
  try_attempt on_invoke a ctx2 = (inr (Won v), ctx3, t3) ->
  safe_invoke_tool tool_obj args kwargs ctx = (inr v, ctx3, t1 ++ t2 ++ t3).
Proof.
  intros Hd Hr He Ho Hp Hsplit Hpre Ha.
  rewrite (safe_invoke_tool_after_direct _ _ _ _ _ _ Hd).
  unfold named_methods, on_invoke_block. rewrite Hr, He, Ho, Hp, Hsplit.
  unfold bind. rewrite (run_attempts_first_win _ _ _ post _ _ _ _ _ _ _ _ Hpre Ha).
  cbn. now rewrite app_nil_r.
Qed.

(** One attempt makes one call at most. *)
Lemma try_attempt_calls on_invoke a ctx r ctx' t :
  try_attempt on_invoke a ctx = (r, ctx', t) -> length t <= 1.
Proof.
  unfold try_attempt, try_except, bind, run_attempt, call, await, ret, raise.
  destruct a as [args kwargs | holder payload].
  - destruct (accepts on_invoke args kwargs).
    + destruct (body on_invoke args kwargs ctx) as [[e | [[] | co]] cx];
        try destruct (co cx) as [[e' | v'] cx'];
        intros H; injection H as _ _ <-; cbn; lia.
    + intros H; injection H as _ _ <-; cbn; lia.
  - destruct (Py.json_serializable (VDict payload)).
    + destruct (accepts on_invoke [holder; VJson payload] []).
      * destruct (body on_invoke [holder; VJson payload] [] ctx)
          as [[e | [[] | co]] cx];
          try destruct (co cx) as [[e' | v'] cx'];
          intros H; injection H as _ _ <-; cbn; lia.
      * intros H; injection H as _ _ <-; cbn; lia.
    + intros H; injection H as _ _ <-; cbn; lia.
Qed.

(** The loop over the attempts is one pass: it makes no more calls than
    there are attempts. *)
Lemma run_attempts_one_pass on_invoke attempts :
  forall le ctx r ctx' t,
    run_attempts on_invoke attempts le ctx = (r, ctx', t) ->
    length t <= length attempts.
Proof.
  induction attempts as [|a rest IH]; intros le ctx r ctx' t.
  - cbn. intros H; injection H as _ _ <-. cbn; lia.
  - cbn [run_attempts]. unfold bind.
    destruct (try_attempt on_invoke a ctx) as [[[e | o] cx] t1] eqn:Ha.
    + intros H; injection H as _ _ <-.
      apply try_attempt_calls in Ha. cbn [length]. lia.
    + apply try_attempt_calls in Ha.
      destruct o as [v | | e].
      * cbn. intros H; injection H as _ _ <-.
        rewrite app_nil_r. cbn [length]. lia.
      * destruct (run_attempts on_invoke rest le cx) as [[r2 cx2] t2] eqn:Hr.
        intros H; injection H as _ _ <-. apply IH in Hr.
        rewrite length_app. cbn [length]. lia.
      * destruct (run_attempts on_invoke rest (Some e) cx) as [[r2 cx2] t2] eqn:Hr.
        intros H; injection H as _ _ <-. apply IH in Hr.
        rewrite length_app. cbn [length]. lia.
Qed.

Lemma direct_raises_run_answers_example :
  safe_invoke_tool Samples.direct_fails_run_works_tool [VStr "hello"] [] new_context
  = (inr (VStr "from run"), new_context,
     [Called SDirect [VStr "hello"] []; Called SRun [VStr "hello"] []]).
Proof.
  apply (direct_raises_run_answers Samples.direct_fails_run_works_tool
           (Samples.raising (TypeError "not this way"))
           (Samples.async_returning (VStr "from run"))
           _ _ _ (TypeError "not this way") new_context).
  - reflexivity.
  - apply throws_body; reflexivity.
  - reflexivity.
  - eapply produces_async; reflexivity.
Qed.

(** C7, at a tool whose [on_invoke_tool] is a coroutine function that
    completes with [None] for JSON text and with a string otherwise, called
    with one string.  The first attempt passes JSON text; its coroutine is
    awaited and the [None] it completes with is returned: one call is made
    and the second attempt, which answers, is never made.  The same functions
    without [async] have the [None] of the first attempt discarded, and the
    second attempt gives the result. *)
Theorem awaited_none_ends_the_attempts :
  let payload :=
    [("question", VStr "hello"); ("query", VStr "hello"); ("input", VStr "hello")] in
  safe_invoke_tool Samples.json_shy_tool [VStr "hello"] [] new_context
  = (inr VNone, new_context,
     [Called SOnInvoke [VDummyToolCtx VNone; VJson payload] []])
  /\ produces Samples.json_shy_on_invoke [VDummyToolCtx VNone; VDict payload] []
              new_context (VStr "done") new_context
  /\ safe_invoke_tool Samples.json_shy_sync_tool [VStr "hello"] [] new_context
     = (inr (VStr "done"), new_context,
        [Called SOnInvoke [VDummyToolCtx VNone; VJson payload] [];
         Called SOnInvoke [VDummyToolCtx VNone; VDict payload] []]).
Proof.
  cbv zeta. split; [reflexivity | split; [| reflexivity]].
  eapply produces_async; reflexivity.
Qed.

(** ** The payload *)

Lemma dict_get_set {A} (k' k : string) (v : A) (d : list (string * A)) :
  Py.dict_get k' (Py.dict_set k v d)
  = if String.eqb k' k then Some v else Py.dict_get k' d.
Proof.
  induction d as [|[k0 v0] d IH]; cbn.
  - reflexivity.
  - destruct (String.eqb k k0) eqn:E0; cbn.
    + apply String.eqb_eq in E0. subst k0.
      now destruct (String.eqb k' k).
    + rewrite IH. destruct (String.eqb k' k0) eqn:E1; [| reflexivity].
      apply String.eqb_eq in E1. subst k0.
      now rewrite String.eqb_sym, E0.
Qed.

Lemma dict_set_keys {A} (k : string) (v : A) (d : list (string * A)) :
  Py.key_in k (map fst d) = true ->
  map fst (Py.dict_set k v d) = map fst d.
Proof.
  induction d as [|[k0 v0] d IH]; cbn.
  - discriminate.
  - destruct (String.eqb k k0) eqn:E0; cbn.
    + apply String.eqb_eq in E0. now subst.
    + intros H. now rewrite IH.
Qed.

Lemma dict_get_absent {A} (k : string) (d : list (string * A)) :
  ~ In k (map fst d) -> Py.dict_get k d = None.
Proof.
  induction d as [|[k0 v0] d IH]; cbn; [reflexivity |].
  intros H. destruct (String.eqb k k0) eqn:E.
  - apply String.eqb_eq in E. subst. elim H. now left.
  - apply IH. intros Hin. apply H. now right.
Qed.

Lemma assign_matching_keys keys kwargs :
  forall payload,
    (forall k, Py.key_in k keys = true -> Py.key_in k (map fst payload) = true) ->
    map fst (assign_matching keys kwargs payload) = map fst payload.
Proof.
  induction kwargs as [|[k0 v0] rest IH]; intros payload Hsub; cbn.
  - reflexivity.
  - destruct (Py.key_in k0 keys) eqn:E.
    + rewrite IH.
      * apply dict_set_keys. now apply Hsub.
      * intros k Hk. rewrite dict_set_keys; auto.
    + now apply IH.
Qed.

Lemma assign_matching_get keys kwargs :
  NoDup (map fst kwargs) ->
  forall payload k,
    Py.dict_get k (assign_matching keys kwargs payload)
    = if Py.key_in k keys
      then match Py.dict_get k kwargs with
           | Some v => Some v
           | None => Py.dict_get k payload
           end
      else Py.dict_get k payload.
Proof.
  induction kwargs as [|[k0 v0] rest IH]; intros Hnd payload k.
  - cbn. now destruct (Py.key_in k keys).
  - cbn [map fst] in Hnd. inversion Hnd as [|? ? Hnotin Hnd']; subst.
    cbn [assign_matching Py.dict_get]. rewrite (IH Hnd').
    destruct (String.eqb k k0) eqn:E.
    + apply String.eqb_eq in E. subst k0.
      rewrite (dict_get_absent _ _ Hnotin).
      destruct (Py.key_in k keys); [| reflexivity].
      now rewrite dict_get_set, String.eqb_refl.
    + destruct (Py.key_in k0 keys); [| reflexivity].
      rewrite dict_get_set, E. reflexivity.
Qed.

(** Schema keys [a], [b] and filtered arguments [x], [y] give the payload
    with [a] for [x] and [b] for [y]. *)
Lemma two_names_two_arguments (a b : string) (x y : value) :
  a <> b ->
  assign_positional [a; b] 0 [x; y] [] = [(a, x); (b, y)].
Proof.
  intros Hab. cbn. apply String.eqb_neq in Hab.
  rewrite String.eqb_sym, Hab. reflexivity.
Qed.

(** The payload is what the first two attempts hand to [on_invoke_tool]:
    as JSON text, then as the dict itself, each after the context holder. *)
Lemma payload_goes_first (args : list value) (payload : dict) :
  exists rest,
    positional_attempts args payload
    = AttemptJson (VDummyToolCtx (run_ctx_arg args)) payload
      :: AttemptCall [VDummyToolCtx (run_ctx_arg args); VDict payload] []
      :: rest.
Proof. unfold positional_attempts. cbn [app]. eexists. reflexivity. Qed.

(** C6.  The tool has a schema whose properties are [a] and [b], in this
    order, and the caller's arguments without the context are [x] and [y].
    Without keyword arguments the payload is [a] for [x], [b] for [y].  With
    keyword arguments the payload still has exactly the keys [a] and [b], and
    a keyword argument under one of these names is copied into it, over the
    positional value; any other keyword argument is left out. *)
Theorem schema_payload_zips_names
    tool_obj schema (a b : string) (pa pb x y : value) args kwargs :
  usable_schema tool_obj = Some schema ->
  Py.dict_get "properties" schema = Some (VDict [(a, pa); (b, pb)]) ->
  a <> b ->
  filtered_args args = [x; y] ->
  NoDup (map fst kwargs) ->
  build_payload tool_obj args [] = inr [(a, x); (b, y)]
  /\ exists payload,
       build_payload tool_obj args kwargs = inr payload
       /\ map fst payload = [a; b]
       /\ forall k,
            Py.dict_get k payload
            = if Py.key_in k [a; b]
              then match Py.dict_get k kwargs with
                   | Some v => Some v
                   | None => Py.dict_get k [(a, x); (b, y)]
                   end
              else None.
Proof.
  intros Hs Hp Hab Hf Hnd.
  unfold build_payload, schema_keys. rewrite Hs, Hp.
  unfold payload_from_schema. rewrite Hf. cbn [map fst].
  rewrite (two_names_two_arguments a b x y Hab).
  split; [reflexivity |].
  eexists. split; [reflexivity |]. split.
  - rewrite assign_matching_keys; [reflexivity |]. auto.
  - intros k. rewrite (assign_matching_get _ _ Hnd).
    destruct (Py.key_in k [a; b]) eqn:E; [reflexivity |].
    cbn in E. cbn.
    destruct (String.eqb k a); [discriminate |].
    destruct (String.eqb k b); [discriminate | reflexivity].
Qed.

Lemma schema_payload_zips_names_witness :
  build_payload Samples.two_parameter_tool
                [VRunCtx; VStr "ABC123"; VStr "12A"] []
  = inr [("confirmation_number", VStr "ABC123"); ("new_seat", VStr "12A")]
  /\ exists payload,
       build_payload Samples.two_parameter_tool
                     [VRunCtx; VStr "ABC123"; VStr "12A"]
                     [("new_seat", VStr "14C"); ("meal", VStr "vegan")]
       = inr payload
       /\ map fst payload = ["confirmation_number"; "new_seat"]
       /\ forall k,
            Py.dict_get k payload
            = if Py.key_in k ["confirmation_number"; "new_seat"]
              then match Py.dict_get k [("new_seat", VStr "14C");
                                        ("meal", VStr "vegan")] with
                   | Some v => Some v
                   | None => Py.dict_get k [("confirmation_number", VStr "ABC123");
                                            ("new_seat", VStr "12A")]
                   end
              else None.
Proof.
  apply (schema_payload_zips_names Samples.two_parameter_tool
           [("type", VStr "object");
            ("properties",
             VDict [("confirmation_number", VDict [("type", VStr "string")]);
                    ("new_seat", VDict [("type", VStr "string")])])]
           "confirmation_number" "new_seat"
           (VDict [("type", VStr "string")]) (VDict [("type", VStr "string")])).
  - reflexivity.
  - reflexivity.
  - discriminate.
  - reflexivity.
  - repeat constructor; cbn; intuition discriminate.
Defined.

(** ** The direct call and the context *)

(** C4, as stated, fails: a function of one parameter (the question) is
    called directly with the context and the question, although its
    signature does not take the two. *)
Lemma direct_call_ignores_signature : ~ direct_call_context_only_if_accepted.
Proof.
  intros H.
  specialize (H Samples.question_only_tool Samples.question_only
                [VRunCtx; VStr "What's the baggage policy?"] [] new_context
                (inr (VStr "from run")) new_context
                (Called SDirect [VRunCtx; VStr "What's the baggage policy?"] [])
                [Called SRun [VRunCtx; VStr "What's the baggage policy?"] []]
                eq_refl eq_refl eq_refl (or_introl eq_refl)).
  discriminate H.
Qed.

(** C4, amended.  A callable tool is called directly with the caller's
    positional and keyword arguments as they are, the context among them
    when the caller passed it, whatever the signature of the callable; when
    this call raises, the exception is dropped and the resolver goes on with
    the later strategies from the context the call left. *)
Theorem direct_call_full_arguments_fenced tool_obj c args kwargs ctx :
  tool_call tool_obj = Some c ->
  (exists r ctx1,
      direct_call tool_obj args kwargs ctx
      = (inr r, ctx1, [Called SDirect args kwargs]))
  /\ (forall e ctx1,
        throws c args kwargs ctx e ctx1 ->
        direct_call tool_obj args kwargs ctx
        = (inr None, ctx1, [Called SDirect args kwargs])
        /\ safe_invoke_tool tool_obj args kwargs ctx
           = let '(r, ctx2, t2) := named_methods tool_obj args kwargs ctx1 in
             (r, ctx2, Called SDirect args kwargs :: t2)).
Proof.
  intros Hc. split.
  - destruct (produces_or_throws c args kwargs ctx) as [(v & cx & Hp) | (e & cx & Ht)].
    + exists (Some v), cx. now apply direct_call_produces with (c := c).
    + exists None, cx. apply direct_call_nothing.
      now apply direct_raised with (c := c) (e := e).
  - intros e ctx1 Ht.
    pose proof (direct_raised tool_obj args kwargs ctx c e ctx1 Hc Ht) as Hd.
    split.
    + now apply direct_call_nothing.
    + now rewrite (safe_invoke_tool_after_direct _ _ _ _ _ _ Hd).
Qed.

Lemma direct_call_full_arguments_fenced_witness :
  tool_call Samples.question_only_tool = Some Samples.question_only
  /\ (exists r ctx1,
         direct_call Samples.question_only_tool [VRunCtx; VStr "hello"] []
                     new_context
         = (inr r, ctx1, [Called SDirect [VRunCtx; VStr "hello"] []]))
  /\ (forall e ctx1,
        throws Samples.question_only [VRunCtx; VStr "hello"] [] new_context e ctx1 ->
        direct_call Samples.question_only_tool [VRunCtx; VStr "hello"] []
                    new_context
        = (inr None, ctx1, [Called SDirect [VRunCtx; VStr "hello"] []])
        /\ safe_invoke_tool Samples.question_only_tool [VRunCtx; VStr "hello"] []
                            new_context
           = let '(r, ctx2, t2) :=
               named_methods Samples.question_only_tool
                             [VRunCtx; VStr "hello"] [] ctx1 in
             (r, ctx2, Called SDirect [VRunCtx; VStr "hello"] [] :: t2)).
Proof.
  split; [reflexivity |].
  exact (direct_call_full_arguments_fenced Samples.question_only_tool
           Samples.question_only [VRunCtx; VStr "hello"] [] new_context eq_refl).
Defined.

(** ** The request loop *)

Lemma guarded_request_handled seat_tool faq_tool q ctx l ctx' t :
  handle_request seat_tool faq_tool q ctx = (inr l, ctx', t) ->
  guarded_request seat_tool faq_tool q ctx = (inr l, ctx', t).
Proof. intros H. unfold guarded_request, try_except. now rewrite H. Qed.

(** The handler of the loop prints and does nothing to the context. *)
Lemma guarded_request_failed seat_tool faq_tool q ctx e ctx' t :
  handle_request seat_tool faq_tool q ctx = (inl e, ctx', t) ->
  guarded_request seat_tool faq_tool q ctx = (inr (ErrorReported e), ctx', t).
Proof.
  intros H. unfold guarded_request, try_except. rewrite H. cbn.
  now rewrite app_nil_r.
Qed.

(** C9, as stated, fails: a seat tool whose [on_invoke_tool] writes the seat
    into the context and returns nothing makes the second example query end
    in the error of lines 234-237, and the seat it wrote is in the context
    at the end, which the first and the third query alone leave empty. *)
Lemma failed_request_leaves_its_writes :
  ~ failed_request_leaves_no_trace_in_context.
Proof.
  intros H.
  destruct (H Samples.broken_seat_tool Samples.faq_tool
              "What's the baggage policy?" "I want to change my seat"
              "Do you have Wi-Fi?" new_context
              _ _ _ _ _ _ _ _ _ eq_refl eq_refl eq_refl)
    as (lines & ctx' & t & t' & Hall & Hgood).
  vm_compute in Hall. vm_compute in Hgood.
  injection Hall as _ Hctx _. injection Hgood as Hctx' _.
  rewrite <- Hctx in Hctx'. discriminate Hctx'.
Qed.

(** C9, amended.  When the second of three requests raises, the loop goes
    on: the three lines are the reply to the first request, the report of
    the error and the reply to the third request, the third being handled on
    the context the second left.  The handler of the loop changes nothing in
    the context and rolls nothing back: what the failing request wrote
    before it raised stays.  When the failing request left the context as it
    found it, the lines of the first and third request and the context at
    the end are those of the two requests alone. *)
Theorem failed_request_is_isolated
    seat_tool faq_tool q1 q2 q3 ctx0 l1 ctx1 t1 e ctx2 t2 l3 ctx3 t3 :
  handle_request seat_tool faq_tool q1 ctx0 = (inr l1, ctx1, t1) ->
  handle_request seat_tool faq_tool q2 ctx1 = (inl e, ctx2, t2) ->
  handle_request seat_tool faq_tool q3 ctx2 = (inr l3, ctx3, t3) ->
  request_loop seat_tool faq_tool [q1; q2; q3] ctx0
  = (inr [l1; ErrorReported e; l3], ctx3, t1 ++ t2 ++ t3)
  /\ guarded_request seat_tool faq_tool q2 ctx1 = (inr (ErrorReported e), ctx2, t2)
  /\ (ctx2 = ctx1 ->
      request_loop seat_tool faq_tool [q1; q3] ctx0
      = (inr [l1; l3], ctx3, t1 ++ t3)).
Proof.
  intros H1 H2 H3.
  pose proof (guarded_request_handled _ _ _ _ _ _ _ H1) as G1.
  pose proof (guarded_request_failed _ _ _ _ _ _ _ H2) as G2.
  pose proof (guarded_request_handled _ _ _ _ _ _ _ H3) as G3.
  split; [| split; [exact G2 |]].
  - cbn [request_loop]. unfold bind. rewrite G1, G2, G3. cbn.
    now rewrite !app_nil_r.
  - intros <-. cbn [request_loop]. unfold bind. rewrite G1, G3. cbn.
    now rewrite !app_nil_r.
Qed.

Lemma failed_request_is_isolated_witness :
  request_loop Samples.opaque_tool Samples.faq_tool
               ["What's the baggage policy?"; "I want to change my seat";
                "Is there internet on board?"] new_context
  = (inr [FaqAgentSays (VStr baggage_answer);
          ErrorReported (UnboundLocalError "last_exc");
          FaqAgentSays (VStr wifi_answer)],
     new_context,
     [Called SDirect [VStr "What's the baggage policy?"] []] ++ []
       ++ [Called SDirect [VStr "Is there internet on board?"] []])
  /\ guarded_request Samples.opaque_tool Samples.faq_tool
                     "I want to change my seat" new_context
     = (inr (ErrorReported (UnboundLocalError "last_exc")), new_context, [])
  /\ (new_context = new_context ->
      request_loop Samples.opaque_tool Samples.faq_tool
                   ["What's the baggage policy?"; "Is there internet on board?"]
                   new_context
      = (inr [FaqAgentSays (VStr baggage_answer); FaqAgentSays (VStr wifi_answer)],
         new_context,
         [Called SDirect [VStr "What's the baggage policy?"] []]
           ++ [Called SDirect [VStr "Is there internet on board?"] []])).
Proof.
  apply (failed_request_is_isolated Samples.opaque_tool Samples.faq_tool
           "What's the baggage policy?" "I want to change my seat"
           "Is there internet on board?" new_context);
    vm_compute; reflexivity.
Defined.

(* ------------------------------------------------------------------ *)
(** * Further properties *)

(** ** Substrings and lower case *)

Local Open Scope string_scope.

Lemma prefix_split (k q : string) :
  String.prefix k q = true -> exists s, q = k ++ s.
Proof.
  revert q. induction k as [|a k IH]; intros q H.
  - exists q. reflexivity.
  - destruct q as [|b q]; [discriminate |]. cbn in H.
    destruct (ascii_dec a b) as [<- |]; [| discriminate].
    destruct (IH q H) as [s ->]. exists s. reflexivity.
Qed.

Lemma contains_split (k q : string) :
  PyStr.contains k q = true -> exists p s, q = p ++ k ++ s.
Proof.
  induction q as [|a q IH]; rewrite contains_unfold.
  - destruct (String.prefix k "") eqn:E; [| discriminate].
    intros _. destruct (prefix_split _ _ E) as [s Hs].
    exists "", s. exact Hs.
  - destruct (String.prefix k (String a q)) eqn:E.
    + intros _. destruct (prefix_split _ _ E) as [s Hs].
      exists "", s. exact Hs.
    + intros H. destruct (IH H) as (p & s & ->).
      exists (String a p), s. reflexivity.
Qed.

(** A string that holds [b] holds what [b] holds. *)
Lemma contains_trans (a b c : string) :
  PyStr.contains a b = true -> PyStr.contains b c = true ->
  PyStr.contains a c = true.
Proof.
  intros Hab Hbc.
  destruct (contains_split _ _ Hab) as (p1 & s1 & ->).
  destruct (contains_split _ _ Hbc) as (p2 & s2 & ->).
  replace (p2 ++ (p1 ++ a ++ s1) ++ s2) with ((p2 ++ p1) ++ a ++ (s1 ++ s2)).
  - apply contains_app.
  - now rewrite !string_app_assoc.
Qed.

Lemma lower_ascii_idempotent (c : ascii) :
  PyStr.lower_ascii (PyStr.lower_ascii c) = PyStr.lower_ascii c.
Proof. destruct c as [[] [] [] [] [] [] [] []]; reflexivity. Qed.

Lemma lower_idempotent (s : string) : PyStr.lower (PyStr.lower s) = PyStr.lower s.
Proof.
  induction s as [|c s IH]; cbn; [reflexivity |].
  now rewrite lower_ascii_idempotent, IH.
Qed.

(** ** The FAQ tool *)

Lemma any_in_cons (k : string) (ks : list string) (q : string) :
  PyStr.any_in (k :: ks) q = PyStr.contains k q || PyStr.any_in ks q.
Proof. reflexivity. Qed.

(** X1.  The answer of [faq_lookup_tool] is decided by twelve of its fifteen
    keywords: a question with [baggage] has [bag], one with [seats] or
    [seating] has [seat], so these three never change the answer.  The
    groups are tried in the order baggage, seats, wifi. *)
Theorem faq_answer_by_twelve_keywords (question : string) :
  faq_answer question =
  let q := PyStr.lower question in
  if PyStr.any_in ["luggage"; "carry-on"; "bag"; "weight"] q then baggage_answer
  else if PyStr.any_in ["seat"; "economy"; "business"; "exit row"] q then seats_answer
  else if PyStr.any_in ["wifi"; "internet"; "connectivity"; "network"] q then wifi_answer
  else unknown_answer.
Proof.
  unfold faq_answer. cbv zeta.
  set (q := PyStr.lower question).
  assert (H1 : PyStr.any_in ["baggage"; "luggage"; "carry-on"; "bag"; "weight"] q
               = PyStr.any_in ["luggage"; "carry-on"; "bag"; "weight"] q).
  { rewrite !any_in_cons.
    destruct (PyStr.contains "baggage" q) eqn:E; [| reflexivity].
    assert (Hb : PyStr.contains "bag" q = true)
      by (apply (contains_trans "bag" "baggage"); [reflexivity | exact E]).
    rewrite Hb. cbn. now rewrite !orb_true_r. }
  assert (H2 : PyStr.any_in ["seat"; "seats"; "seating"; "economy"; "business"; "exit row"] q
               = PyStr.any_in ["seat"; "economy"; "business"; "exit row"] q).
  { rewrite !any_in_cons.
    destruct (PyStr.contains "seat" q) eqn:E; [reflexivity |]. cbn [orb].
    destruct (PyStr.contains "seats" q) eqn:E1.
    { rewrite (contains_trans "seat" "seats" q eq_refl E1) in E. discriminate. }
    destruct (PyStr.contains "seating" q) eqn:E2.
    { rewrite (contains_trans "seat" "seating" q eq_refl E2) in E. discriminate. }
    reflexivity. }
  now rewrite H1, H2.
Qed.

(** X2.  Upper and lower case make no difference to the answer. *)
Theorem faq_answer_ignores_case (q1 q2 : string) :
  PyStr.lower q1 = PyStr.lower q2 ->
  faq_answer q1 = faq_answer q2
  /\ faq_answer (PyStr.lower q1) = faq_answer q1.
Proof.
  intros H. unfold faq_answer. cbv zeta.
  now rewrite lower_idempotent, H.
Qed.

Lemma faq_answer_ignores_case_witness :
  PyStr.lower "WiFi on board?" = PyStr.lower "wifi ON BOARD?"
  /\ faq_answer "WiFi on board?" = faq_answer "wifi ON BOARD?"
  /\ faq_answer (PyStr.lower "WiFi on board?") = faq_answer "WiFi on board?".
Proof.
  split; [reflexivity |].
  exact (faq_answer_ignores_case "WiFi on board?" "wifi ON BOARD?" eq_refl).
Defined.

(** X3.  The tool says it does not know exactly when no keyword occurs in the
    question in lower case. *)
Theorem faq_unknown_iff_no_keyword (question : string) :
  faq_answer question = unknown_answer
  <-> PyStr.any_in ["baggage"; "luggage"; "carry-on"; "bag"; "weight";
                    "seat"; "seats"; "seating"; "economy"; "business"; "exit row";
                    "wifi"; "internet"; "connectivity"; "network"]
                   (PyStr.lower question) = false.
Proof.
  unfold faq_answer. cbv zeta.
  set (q := PyStr.lower question).
  change (PyStr.any_in ["baggage"; "luggage"; "carry-on"; "bag"; "weight";
                        "seat"; "seats"; "seating"; "economy"; "business"; "exit row";
                        "wifi"; "internet"; "connectivity"; "network"] q)
    with (PyStr.any_in (["baggage"; "luggage"; "carry-on"; "bag"; "weight"]
                        ++ ["seat"; "seats"; "seating"; "economy"; "business"; "exit row"]
                        ++ ["wifi"; "internet"; "connectivity"; "network"])%list q).
  unfold PyStr.any_in. rewrite !existsb_app.
  destruct (existsb _ ["baggage"; "luggage"; "carry-on"; "bag"; "weight"]).
  { split; [intros H; vm_compute in H; discriminate | discriminate]. }
  destruct (existsb _ ["seat"; "seats"; "seating"; "economy"; "business"; "exit row"]).
  { split; [intros H; vm_compute in H; discriminate | discriminate]. }
  destruct (existsb _ ["wifi"; "internet"; "connectivity"; "network"]).
  { split; [intros H; vm_compute in H; discriminate | discriminate]. }
  split; reflexivity.
Qed.

(** ** Seat updates in a session *)

(** X4.  Whatever the context, the message of [update_seat] names the seat, the
    confirmation number and the flight number that the context holds after
    the call, and that flight number is set. *)
Theorem update_seat_message_matches_context
    (rnd : Z) (c s : string) (ctx : AirlineAgentContext) :
  let '(msg, ctx') := update_seat rnd c s ctx in
  exists flight,
    flight_number ctx' = Some flight
    /\ msg = seat_message s c flight
    /\ PyStr.contains s msg = true
    /\ PyStr.contains c msg = true
    /\ PyStr.contains flight msg = true.
Proof.
  unfold update_seat.
  destruct ctx as [p cn sn [f |]]; cbn [flight_number passenger_name
    confirmation_number seat_number fmt_opt].
  - exists f. split; [reflexivity | split; [reflexivity |]].
    split; [apply seat_message_has_seat |].
    split; [apply seat_message_has_confirmation | apply seat_message_has_flight].
  - exists (generated_flight rnd). split; [reflexivity | split; [reflexivity |]].
    split; [apply seat_message_has_seat |].
    split; [apply seat_message_has_confirmation | apply seat_message_has_flight].
Qed.

(** X5.  The same update made twice is the update made once: same message, same
    context, whatever number the second call would draw. *)
Theorem update_seat_idempotent
    (rnd rnd' : Z) (c s : string) (ctx : AirlineAgentContext) :
  update_seat rnd' c s (snd (update_seat rnd c s ctx)) = update_seat rnd c s ctx.
Proof. destruct ctx as [p cn sn [f |]]; reflexivity. Qed.

Lemma seat_updates_snoc reqs rnd c s ctx :
  seat_updates (reqs ++ [(rnd, c, s)])%list ctx
  = snd (update_seat rnd c s (seat_updates reqs ctx)).
Proof. unfold seat_updates. now rewrite fold_left_app. Qed.

Lemma seat_updates_keep_flight reqs :
  forall ctx f,
    flight_number ctx = Some f ->
    flight_number (seat_updates reqs ctx) = Some f
    /\ passenger_name (seat_updates reqs ctx) = passenger_name ctx.
Proof.
  induction reqs as [|[[rnd c] s] rest IH]; intros ctx f Hf.
  - now split.
  - change (seat_updates ((rnd, c, s) :: rest) ctx)
      with (seat_updates rest (snd (update_seat rnd c s ctx))).
    pose proof (update_seat_context rnd c s ctx) as Hc. rewrite Hf in Hc.
    destruct (IH (snd (update_seat rnd c s ctx)) f) as [H1 H2].
    + now rewrite Hc.
    + split; [exact H1 |]. rewrite H2, Hc. reflexivity.
Qed.

Lemma last_from_head {A} (a d : A) (l : list A) : last (a :: l) d = last l a.
Proof.
  revert a d. induction l as [|b l IH]; intros a d; [reflexivity |].
  change (last (a :: b :: l) d) with (last (b :: l) d).
  now rewrite !IH.
Qed.

(** X6.  Any number of seat updates in a session: the passenger name stays, the
    confirmation number and the seat are those of the last update, and the
    flight number is the one the session had, or else the one generated by
    the first update; later updates never replace it. *)
Theorem seat_updates_last_write_first_flight
    (first : seat_request) (more : list seat_request) (ctx : AirlineAgentContext) :
  let reqs := (first :: more)%list in
  let '(_, c, s) := last more first in
  seat_updates reqs ctx
  = mkContext (passenger_name ctx) (Some c) (Some s)
              (match flight_number ctx with
               | Some f => Some f
               | None => Some (generated_flight (fst (fst first)))
               end).
Proof.
  cbv zeta. revert first ctx.
  induction more as [|next more IH]; intros [[rnd c] s] ctx.
  - cbn [last]. unfold seat_updates. cbn [fold_left].
    apply update_seat_context.
  - rewrite last_from_head.
    change (seat_updates ((rnd, c, s) :: next :: more) ctx)
      with (seat_updates (next :: more) (snd (update_seat rnd c s ctx))).
    specialize (IH next (snd (update_seat rnd c s ctx))).
    destruct (last more next) as [[r' c'] s'].
    rewrite IH, update_seat_context. cbn [passenger_name flight_number fst].
    now destruct (flight_number ctx).
Qed.

Lemma to_int_not_nil (z : Z) :
  Z.to_int z <> Decimal.Pos Decimal.Nil /\ Z.to_int z <> Decimal.Neg Decimal.Nil.
Proof.
  destruct z as [| p | p]; cbn; split; try discriminate;
    intros H; injection H as H;
    now apply (DecimalPos.Unsigned.to_uint_nonnil p).
Qed.

(** The text of an [int] tells the [int]. *)
Lemma of_int_inj (a b : Z) : PyStr.of_int a = PyStr.of_int b -> a = b.
Proof.
  unfold PyStr.of_int. intros H.
  apply DecimalZ.to_int_inj.
  destruct (to_int_not_nil a) as [Ha1 Ha2].
  destruct (to_int_not_nil b) as [Hb1 Hb2].
  pose proof (NilZero.isi _ Ha1 Ha2) as Ia.
  pose proof (NilZero.isi _ Hb1 Hb2) as Ib.
  rewrite H in Ia. rewrite Ia in Ib. now injection Ib.
Qed.

Lemma three_digits_all :
  forallb (fun n => three_digits (Z.of_nat (100 + n))) (seq 0 900) = true.
Proof. vm_compute. reflexivity. Qed.

(** X7.  A generated flight number is [FLT-] and three digits, seven characters
    in all, when the number drawn is between 100 and 999; different draws
    give different flight numbers. *)
Theorem generated_flight_format (rnd : Z) :
  (100 <= rnd <= 999)%Z ->
  String.length (generated_flight rnd) = 7
  /\ String.prefix "FLT-" (generated_flight rnd) = true
  /\ forall rnd', generated_flight rnd' = generated_flight rnd -> rnd' = rnd.
Proof.
  intros Hr.
  assert (H : three_digits rnd = true).
  { pose proof three_digits_all as Hall.
    rewrite forallb_forall in Hall.
    specialize (Hall (Z.to_nat rnd - 100)%nat).
    replace (Z.of_nat (100 + (Z.to_nat rnd - 100))) with rnd in Hall by lia.
    apply Hall. apply in_seq. lia. }
  unfold three_digits in H. apply andb_true_iff in H as [H1 H2].
  split; [now apply Nat.eqb_eq | split; [exact H2 |]].
  intros rnd' E. unfold generated_flight in E.
  injection E as E. now apply of_int_inj.
Qed.

Lemma generated_flight_format_witness :
  String.length (generated_flight 417) = 7
  /\ String.prefix "FLT-" (generated_flight 417) = true
  /\ forall rnd', generated_flight rnd' = generated_flight 417 -> rnd' = 417%Z.
Proof. apply (generated_flight_format 417). lia. Defined.

(** ** Payloads *)

Local Open Scope list_scope.

Lemma dict_set_fresh {A} (k : string) (v : A) (d : list (string * A)) :
  ~ In k (map fst d) -> Py.dict_set k v d = d ++ [(k, v)].
Proof.
  induction d as [|[k0 v0] d IH]; cbn; [reflexivity |].
  intros H. destruct (String.eqb k k0) eqn:E.
  - apply String.eqb_eq in E. subst. elim H. now left.
  - rewrite IH; [reflexivity |]. intros Hin. apply H. now right.
Qed.

Lemma nth_error_cut {A} (l : list A) (i : nat) (a : A) :
  nth_error l i = Some a ->
  firstn (S i) l = firstn i l ++ [a] /\ skipn i l = a :: skipn (S i) l.
Proof.
  revert i. induction l as [|b l IH]; intros [|i] H; try discriminate.
  - injection H as ->. now split.
  - cbn in H. destruct (IH i H) as [H1 H2].
    split; [rewrite !firstn_cons, H1; reflexivity | exact H2].
Qed.

Lemma nth_error_fresh (names : list string) (i : nat) (k : string) :
  NoDup names -> nth_error names i = Some k -> ~ In k (firstn i names).
Proof.
  intros Hnd Hn Hin.
  destruct (nth_error_cut _ _ _ Hn) as [_ Hs].
  rewrite <- (firstn_skipn i names), Hs in Hnd.
  apply NoDup_remove_2 in Hnd. apply Hnd, in_or_app. now left.
Qed.

Lemma assign_positional_appends (names : list string) :
  NoDup names ->
  forall vals i payload,
    map fst payload = firstn i names ->
    assign_positional names i vals payload
    = payload ++ combine (skipn i names) vals.
Proof.
  intros Hnd. induction vals as [|v vals IH]; intros i payload Hp.
  - cbn. destruct (skipn i names); now rewrite app_nil_r.
  - cbn [assign_positional].
    destruct (nth_error names i) as [k |] eqn:Hn.
    + destruct (nth_error_cut _ _ _ Hn) as [Hf Hs].
      rewrite dict_set_fresh
        by (rewrite Hp; now apply nth_error_fresh).
      rewrite IH by (rewrite map_app, Hp, Hf; reflexivity).
      rewrite Hs. cbn [combine]. now rewrite <- app_assoc.
    + apply nth_error_None in Hn.
      rewrite IH.
      * rewrite !skipn_all2 by lia. reflexivity.
      * rewrite Hp, !firstn_all2 by lia. reflexivity.
Qed.

(** With distinct names, the loop over the positional values pairs names
    and values in order and stops at the shorter of the two. *)
Lemma assign_positional_combine (names : list string) (vals : list value) :
  NoDup names -> assign_positional names 0 vals [] = combine names vals.
Proof.
  intros Hnd. now rewrite (assign_positional_appends names Hnd vals 0 []).
Qed.

(** X8.  A tool with a schema, called without keyword arguments: the payload
    pairs the names of the schema's properties, in their order, with the
    arguments that are not the context; arguments beyond the names are left
    out, names beyond the arguments get no entry. *)
Theorem schema_payload_pairs_in_order tool_obj schema props args :
  usable_schema tool_obj = Some schema ->
  Py.dict_get "properties" schema = Some (VDict props) ->
  NoDup (map fst props) ->
  build_payload tool_obj args []
  = inr (combine (map fst props) (filtered_args args))
  /\ (forall payload,
        build_payload tool_obj args [] = inr payload ->
        length payload = Nat.min (length props) (length (filtered_args args))).
Proof.
  intros Hs Hp Hnd.
  assert (E : build_payload tool_obj args []
              = inr (combine (map fst props) (filtered_args args))).
  { unfold build_payload, schema_keys. rewrite Hs, Hp.
    unfold payload_from_schema. cbn [assign_matching].
    now rewrite assign_positional_combine. }
  split; [exact E |].
  intros payload H. rewrite E in H. injection H as <-.
  now rewrite length_combine, length_map.
Qed.

Lemma schema_payload_pairs_in_order_witness :
  build_payload Samples.two_parameter_tool
                [VStr "ABC123"; VRunCtx; VStr "12A"; VStr "window"] []
  = inr (combine ["confirmation_number"; "new_seat"]
                 (filtered_args [VStr "ABC123"; VRunCtx; VStr "12A"; VStr "window"]))
  /\ (forall payload,
        build_payload Samples.two_parameter_tool
                      [VStr "ABC123"; VRunCtx; VStr "12A"; VStr "window"] []
        = inr payload ->
        length payload
        = Nat.min 2 (length (filtered_args
                               [VStr "ABC123"; VRunCtx; VStr "12A"; VStr "window"]))).
Proof.
  apply (schema_payload_pairs_in_order Samples.two_parameter_tool
           [("type", VStr "object");
            ("properties",
             VDict [("confirmation_number", VDict [("type", VStr "string")]);
                    ("new_seat", VDict [("type", VStr "string")])])]
           [("confirmation_number", VDict [("type", VStr "string")]);
            ("new_seat", VDict [("type", VStr "string")])]).
  - reflexivity.
  - reflexivity.
  - repeat constructor; cbn; intuition discriminate.
Defined.

(** X9.  A tool without a usable schema.  One argument that is a string goes
    under [question], [query] and [input] at once.  Any other argument list
    is stripped of the context and paired in order with
    [confirmation_number], [new_seat], [seat], [query], [question], [input];
    a seventh value and later ones are left out.  The string test is made on
    the arguments as passed, so a context next to one string sends the
    string under [confirmation_number]. *)
Theorem heuristic_payload tool_obj args kwargs :
  usable_schema tool_obj = None ->
  build_payload tool_obj args kwargs
  = inr (match args with
         | [a] =>
             if Py.isinstance_str a
             then [("question", a); ("query", a); ("input", a)]
             else combine common_param_names (filtered_args args)
         | _ => combine common_param_names (filtered_args args)
         end)
  /\ forall s,
       build_payload tool_obj [VRunCtx; VStr s] kwargs
       = inr [("confirmation_number", VStr s)].
Proof.
  intros Hs. unfold build_payload. rewrite Hs.
  assert (Hnd : NoDup common_param_names)
    by (repeat constructor; cbn; intuition discriminate).
  split; [| reflexivity].
  f_equal. unfold payload_heuristic.
  destruct args as [|a [|b rest]].
  - reflexivity.
  - destruct (Py.isinstance_str a); [reflexivity |].
    now apply assign_positional_combine.
  - now apply assign_positional_combine.
Qed.

Lemma heuristic_payload_witness :
  build_payload MoreSamples.schemaless_tool [VStr "hello"] []
  = inr (if Py.isinstance_str (VStr "hello")
         then [("question", VStr "hello"); ("query", VStr "hello");
               ("input", VStr "hello")]
         else combine common_param_names (filtered_args [VStr "hello"]))
  /\ forall s,
       build_payload MoreSamples.schemaless_tool [VRunCtx; VStr s] []
       = inr [("confirmation_number", VStr s)].
Proof.
  exact (heuristic_payload MoreSamples.schemaless_tool [VStr "hello"] [] eq_refl).
Defined.

Lemma dict_set_in {A} (k k0 : string) (v v0 : A) (d : list (string * A)) :
  In (k, v) (Py.dict_set k0 v0 d) -> (k, v) = (k0, v0) \/ In (k, v) d.
Proof.
  induction d as [|[k1 v1] d IH]; cbn.
  - intros [H | []]. left. now symmetry.
  - destruct (String.eqb k0 k1); cbn.
    + intros [H | H]; [left; now symmetry | right; now right].
    + intros [H | H]; [right; now left |].
      destruct (IH H) as [E | Hin]; [now left | right; now right].
Qed.

Lemma assign_positional_entries (names : list string) (Q : string -> value -> Prop) :
  forall vals i payload,
    (forall k v, In k names -> In v vals -> Q k v) ->
    (forall k v, In (k, v) payload -> Q k v) ->
    forall k v, In (k, v) (assign_positional names i vals payload) -> Q k v.
Proof.
  induction vals as [|val vals IH]; intros i payload Hv Hp k v; cbn.
  - apply Hp.
  - apply IH.
    + intros k' v' Hk Hin. apply Hv; [exact Hk | now right].
    + intros k' v' Hin.
      destruct (nth_error names i) as [kn |] eqn:Hn; [| now apply Hp].
      destruct (dict_set_in _ _ _ _ _ Hin) as [E | Hold]; [| now apply Hp].
      injection E as -> ->. apply Hv; [| now left].
      eapply nth_error_In; eauto.
Qed.

Lemma assign_matching_entries (keys : list string) (Q : string -> value -> Prop) :
  forall kwargs payload,
    (forall k v, In k keys -> In (k, v) kwargs -> Q k v) ->
    (forall k v, In (k, v) payload -> Q k v) ->
    forall k v, In (k, v) (assign_matching keys kwargs payload) -> Q k v.
Proof.
  induction kwargs as [|[k0 v0] kwargs IH]; intros payload Hk Hp k v; cbn.
  - apply Hp.
  - apply IH.
    + intros k' v' Hin Hkw. apply Hk; [exact Hin | now right].
    + intros k' v' Hin.
      destruct (Py.key_in k0 keys) eqn:E; [| now apply Hp].
      destruct (dict_set_in _ _ _ _ _ Hin) as [E' | Hold]; [| now apply Hp].
      injection E' as -> ->. apply Hk; [| now left].
      unfold Py.key_in in E. apply existsb_exists in E as (x & Hx & Ex).
      apply String.eqb_eq in Ex. now subst.
Qed.

(** X10.  Every entry of a payload built from a schema is under a name of the
    schema, and its value is a positional argument that is not the context
    or the value of the caller's keyword argument of that name.  So the
    context enters the payload only if the caller passes it by keyword under
    a schema name, and a keyword argument under any other name never does. *)
Theorem schema_payload_entries keys args kwargs k v :
  In (k, v) (payload_from_schema keys args kwargs) ->
  In k keys
  /\ ((In v args /\ Py.isinstance_RunContextWrapper v = false)
      \/ In (k, v) kwargs).
Proof.
  unfold payload_from_schema.
  apply (assign_matching_entries keys
           (fun k v => In k keys
                       /\ ((In v args /\ Py.isinstance_RunContextWrapper v = false)
                           \/ In (k, v) kwargs))).
  - intros k' v' Hk Hin. split; [exact Hk | now right].
  - apply (assign_positional_entries keys).
    + intros k' v' Hk Hin. split; [exact Hk | left].
      unfold filtered_args in Hin. apply filter_In in Hin as [Hin Hf].
      split; [exact Hin |]. now apply negb_true_iff in Hf.
    + intros k' v' [].
Qed.

Lemma schema_payload_entries_witness :
  In "new_seat" ["confirmation_number"; "new_seat"]
  /\ ((In (VStr "12A") [VRunCtx; VStr "ABC123"; VStr "12A"]
       /\ Py.isinstance_RunContextWrapper (VStr "12A") = false)
      \/ In ("new_seat", VStr "12A") [("meal", VStr "vegan")]).
Proof.
  apply (schema_payload_entries ["confirmation_number"; "new_seat"]
           [VRunCtx; VStr "ABC123"; VStr "12A"] [("meal", VStr "vegan")]).
  cbn. right. now left.
Defined.

Lemma assign_positional_no_names vals :
  forall i payload, assign_positional [] i vals payload = payload.
Proof.
  induction vals as [|v vals IH]; intros i payload; cbn; [reflexivity |].
  rewrite IH. now destruct i.
Qed.

Lemma assign_matching_no_keys kwargs :
  forall payload, assign_matching [] kwargs payload = payload.
Proof.
  induction kwargs as [|[k v] kwargs IH]; intros payload; cbn; [reflexivity |].
  apply IH.
Qed.

(** X11.  A schema that is a non-empty dict without [properties] (or with empty
    ones) turns the heuristics off and leaves the payload empty, whatever
    the caller passed. *)
Theorem schema_without_properties_empties_payload
    tool_obj schema args kwargs :
  usable_schema tool_obj = Some schema ->
  (Py.dict_get "properties" schema = None
   \/ Py.dict_get "properties" schema = Some (VDict [])
   \/ Py.dict_get "properties" schema = Some VNone) ->
  build_payload tool_obj args kwargs = inr [].
Proof.
  intros Hs Hp. unfold build_payload, schema_keys. rewrite Hs.
  destruct Hp as [-> | [-> | ->]]; cbn;
    unfold payload_from_schema;
    now rewrite assign_positional_no_names, assign_matching_no_keys.
Qed.

Lemma schema_without_properties_empties_payload_witness :
  build_payload MoreSamples.schema_without_properties_tool
                [VRunCtx; VStr "ABC123"; VStr "12A"] [("seat", VStr "12A")]
  = inr [].
Proof.
  apply (schema_without_properties_empties_payload
           MoreSamples.schema_without_properties_tool
           [("type", VStr "object")]).
  - reflexivity.
  - now left.
Defined.

(** ** The attempts on [on_invoke_tool] *)

Lemma run_ctx_arg_spec (args : list value) :
  run_ctx_arg args = if has_run_ctx args then VRunCtx else VNone.
Proof.
  induction args as [|a args IH]; [reflexivity |].
  unfold has_run_ctx in *. cbn.
  destruct a; cbn; try exact IH; reflexivity.
Qed.

Lemma filtered_args_without_ctx (args : list value) :
  has_run_ctx args = false -> filtered_args args = args.
Proof.
  unfold has_run_ctx, filtered_args.
  induction args as [|a args IH]; [reflexivity |]. cbn.
  intros H. apply orb_false_iff in H as [Ha Hr].
  rewrite Ha. cbn. now rewrite IH.
Qed.

Lemma positional_attempts_length (args : list value) (payload : dict) :
  length (positional_attempts args payload)
  = 5 + (if single_string (filtered_args args) then 1 else 0)
      + (if has_run_ctx args then 3 else 0).
Proof.
  unfold positional_attempts, single_string. rewrite run_ctx_arg_spec.
  destruct (has_run_ctx args);
    destruct (filtered_args args) as [|a [|b rest]];
    try destruct (Py.isinstance_str a); reflexivity.
Qed.

Lemma positional_attempts_at_most_nine (args : list value) (payload : dict) :
  length (positional_attempts args payload) <= 9.
Proof.
  rewrite positional_attempts_length.
  destruct (single_string (filtered_args args)), (has_run_ctx args); cbn; lia.
Qed.

(** X12.  There are five attempts, one more when the arguments without the
    context are a single string, three more when a context was passed: nine
    at most.  The first passes the payload as JSON text, the last passes it
    as keyword arguments. *)
Theorem positional_attempts_count (args : list value) (payload : dict) :
  length (positional_attempts args payload)
  = 5 + (if single_string (filtered_args args) then 1 else 0)
      + (if has_run_ctx args then 3 else 0)
  /\ hd_error (positional_attempts args payload)
     = Some (AttemptJson (VDummyToolCtx (run_ctx_arg args)) payload)
  /\ last (positional_attempts args payload) (AttemptCall [] [])
     = AttemptCall [] payload
  /\ 5 <= length (positional_attempts args payload) <= 9.
Proof.
  pose proof (positional_attempts_length args payload) as L.
  split; [exact L | split; [reflexivity | split]].
  - unfold positional_attempts. rewrite run_ctx_arg_spec.
    destruct (has_run_ctx args);
      destruct (filtered_args args) as [|a [|b rest]];
      try destruct (Py.isinstance_str a); reflexivity.
  - rewrite L.
    destruct (single_string (filtered_args args)), (has_run_ctx args); cbn; lia.
Qed.

(** X13.  Called without a context, the attempt with the arguments as passed and
    the attempt with the context filtered out are the same call, made twice
    in a row, and a third time before them when the argument is a single
    string; the context holder of the first two attempts holds [None]. *)
Theorem attempts_without_context (args : list value) (payload : dict) :
  has_run_ctx args = false ->
  positional_attempts args payload
  = [ AttemptJson (VDummyToolCtx VNone) payload;
      AttemptCall [VDummyToolCtx VNone; VDict payload] [] ]
    ++ (if single_string args then [AttemptCall args []] else [])
    ++ [ AttemptCall args []; AttemptCall args []; AttemptCall [] payload ].
Proof.
  intros H. unfold positional_attempts, single_string.
  rewrite run_ctx_arg_spec, H, (filtered_args_without_ctx _ H). cbn [Py.is_None].
  destruct args as [|a [|b rest]]; try destruct (Py.isinstance_str a); reflexivity.
Qed.

Lemma attempts_without_context_witness :
  positional_attempts [VStr "hello"] [("question", VStr "hello")]
  = [ AttemptJson (VDummyToolCtx VNone) [("question", VStr "hello")];
      AttemptCall [VDummyToolCtx VNone; VDict [("question", VStr "hello")]] [] ]
    ++ (if single_string [VStr "hello"] then [AttemptCall [VStr "hello"] []] else [])
    ++ [ AttemptCall [VStr "hello"] []; AttemptCall [VStr "hello"] [];
         AttemptCall [] [("question", VStr "hello")] ].
Proof.
  exact (attempts_without_context [VStr "hello"] [("question", VStr "hello")] eq_refl).
Defined.

(** X14.  Called with the context first, as [main] does, the attempts are nine
    or eight; the one with the context put in front repeats the one with the
    arguments as passed. *)
Theorem attempts_with_context_first (rest : list value) (payload : dict) :
  has_run_ctx rest = false ->
  positional_attempts (VRunCtx :: rest) payload
  = [ AttemptJson (VDummyToolCtx VRunCtx) payload;
      AttemptCall [VDummyToolCtx VRunCtx; VDict payload] [] ]
    ++ (if single_string rest then [AttemptCall rest []] else [])
    ++ [ AttemptCall (VRunCtx :: rest) [];
         AttemptCall rest [];
         AttemptCall (rest ++ [VRunCtx]) [];
         AttemptCall (VRunCtx :: rest) [];
         AttemptCall [VRunCtx] [];
         AttemptCall [] payload ].
Proof.
  intros H. unfold positional_attempts, single_string.
  change (filtered_args (VRunCtx :: rest)) with (filtered_args rest).
  rewrite (filtered_args_without_ctx _ H).
  destruct rest as [|a [|b more]]; try destruct (Py.isinstance_str a); reflexivity.
Qed.

Lemma attempts_with_context_first_witness :
  positional_attempts [VRunCtx; VStr "ABC123"; VStr "12A"] []
  = [ AttemptJson (VDummyToolCtx VRunCtx) [];
      AttemptCall [VDummyToolCtx VRunCtx; VDict []] [] ]
    ++ (if single_string [VStr "ABC123"; VStr "12A"]
        then [AttemptCall [VStr "ABC123"; VStr "12A"] []] else [])
    ++ [ AttemptCall [VRunCtx; VStr "ABC123"; VStr "12A"] [];
         AttemptCall [VStr "ABC123"; VStr "12A"] [];
         AttemptCall ([VStr "ABC123"; VStr "12A"] ++ [VRunCtx]) [];
         AttemptCall [VRunCtx; VStr "ABC123"; VStr "12A"] [];
         AttemptCall [VRunCtx] [];
         AttemptCall [] [] ].
Proof.
  exact (attempts_with_context_first [VStr "ABC123"; VStr "12A"] [] eq_refl).
Defined.

Lemma try_attempt_produces on_invoke args kwargs ctx v ctx' :
  produces on_invoke args kwargs ctx v ctx' ->
  v <> VNone ->
  try_attempt on_invoke (AttemptCall args kwargs) ctx
  = (inr (Won v), ctx', [Called SOnInvoke args kwargs]).
Proof.
  intros Hp Hv.
  unfold try_attempt, try_except, bind, run_attempt, call, await, ret.
  destruct Hp as [v ctx' Ha Hb | co ctx1 v ctx' Ha Hb Hc]; rewrite Ha, Hb.
  - destruct v; try reflexivity. now elim Hv.
  - rewrite Hc. reflexivity.
Qed.

Lemma try_attempt_throws on_invoke args kwargs ctx e ctx' :
  throws on_invoke args kwargs ctx e ctx' ->
  try_attempt on_invoke (AttemptCall args kwargs) ctx
  = (inr (Failed e), ctx', [Called SOnInvoke args kwargs]).
Proof.
  intros Ht.
  unfold try_attempt, try_except, bind, run_attempt, call, await, ret.
  destruct Ht as [Ha | e ctx' Ha Hb | co ctx1 e ctx' Ha Hb Hc];
    rewrite Ha; try rewrite Hb; try rewrite Hc; reflexivity.
Qed.

(** X15.  A payload that [json.dumps] refuses costs the first attempt only: no
    call is made for it, and when [on_invoke_tool] answers the payload passed
    as a dict, that answer is the result, after one call. *)
Theorem unserializable_payload_goes_as_dict
    tool_obj on_invoke payload args kwargs ctx ctx1 t1 v ctx2 :
  direct_yields_nothing tool_obj args kwargs ctx ctx1 t1 ->
  Py.callable_attr tool_obj "run" = None ->
  Py.callable_attr tool_obj "execute" = None ->
  Py.callable_attr tool_obj "on_invoke_tool" = Some on_invoke ->
  build_payload tool_obj args kwargs = inr payload ->
  Py.json_serializable (VDict payload) = false ->
  produces on_invoke [VDummyToolCtx (run_ctx_arg args); VDict payload] []
           ctx1 v ctx2 ->
  v <> VNone ->
  safe_invoke_tool tool_obj args kwargs ctx
  = (inr v, ctx2,
     t1 ++ [Called SOnInvoke [VDummyToolCtx (run_ctx_arg args); VDict payload] []]).
Proof.
  intros Hd Hr He Ho Hp Hj Hprod Hv.
  destruct (payload_goes_first args payload) as [rest Hrest].
  assert (Hjson : try_attempt on_invoke
                    (AttemptJson (VDummyToolCtx (run_ctx_arg args)) payload) ctx1
                  = (inr (Failed (TypeError "Object is not JSON serializable")),
                     ctx1, [])).
  { unfold try_attempt, try_except, bind, run_attempt. now rewrite Hj. }
  rewrite (on_invoke_after_named_methods tool_obj on_invoke payload args kwargs
             ctx ctx1 t1
             [AttemptJson (VDummyToolCtx (run_ctx_arg args)) payload]
             (AttemptCall [VDummyToolCtx (run_ctx_arg args); VDict payload] [])
             rest (Some (TypeError "Object is not JSON serializable"))
             ctx1 ([] ++ []) v ctx2
             [Called SOnInvoke [VDummyToolCtx (run_ctx_arg args); VDict payload] []]
             Hd Hr He Ho Hp Hrest).
  - reflexivity.
  - eapply discarded_failed; [exact Hjson | apply discarded_nil].
  - now apply try_attempt_produces.
Qed.

Lemma unserializable_payload_goes_as_dict_witness :
  safe_invoke_tool MoreSamples.dict_only_tool [VStr "x"]
                   [("handle", VObject 7)] new_context
  = (inr (VStr "took the dict"), new_context,
     [] ++ [Called SOnInvoke [VDummyToolCtx (run_ctx_arg [VStr "x"]);
                              VDict [("handle", VObject 7)]] []]).
Proof.
  apply (unserializable_payload_goes_as_dict MoreSamples.dict_only_tool
           MoreSamples.dict_only_on_invoke [("handle", VObject 7)]
           [VStr "x"] [("handle", VObject 7)] new_context new_context).
  - now apply direct_not_callable.
  - reflexivity.
  - reflexivity.
  - reflexivity.
  - reflexivity.
  - reflexivity.
  - apply produces_sync; reflexivity.
  - discriminate.
Defined.

(** ** The strategies, one by one *)

(** X17.  When the direct call gave nothing and the tool has a callable [run],
    what [run] yields is the result, [None] included; [execute],
    [on_invoke_tool] and wrapped functions are not called. *)
Theorem run_answer_is_final tool_obj run args kwargs ctx ctx1 t1 v ctx2 :
  Py.callable_attr tool_obj "run" = Some run ->
  direct_yields_nothing tool_obj args kwargs ctx ctx1 t1 ->
  produces run args kwargs ctx1 v ctx2 ->
  safe_invoke_tool tool_obj args kwargs ctx
  = (inr v, ctx2, t1 ++ [Called SRun args kwargs]).
Proof.
  intros Hr Hd Hp.
  rewrite (safe_invoke_tool_after_direct _ _ _ _ _ _ Hd).
  unfold named_methods. rewrite Hr.
  now rewrite (call_and_normalize_produces _ _ _ _ _ _ _ Hp).
Qed.

Lemma run_answer_is_final_witness :
  safe_invoke_tool (MoreSamples.seat_run_tool 417)
                   [VRunCtx; VStr "ABC123"; VStr "12A"] [] new_context
  = (inr (VStr (seat_message "12A" "ABC123" (generated_flight 417))),
     mkContext None (Some "ABC123"%string) (Some "12A"%string)
               (Some (generated_flight 417)),
     [] ++ [Called SRun [VRunCtx; VStr "ABC123"; VStr "12A"] []]).
Proof.
  apply (run_answer_is_final (MoreSamples.seat_run_tool 417)
           (MoreSamples.seat_run 417) _ _ new_context new_context).
  - reflexivity.
  - now apply direct_not_callable.
  - apply produces_sync; reflexivity.
Defined.

(** X18.  A [run] attribute that is not callable does not count: with a callable
    [execute] the outcome of [execute], value or exception, is the outcome,
    and nothing after [execute] is tried. *)
Theorem execute_when_run_not_callable
    tool_obj execute args kwargs ctx ctx1 t1 :
  Py.callable_attr tool_obj "run" = None ->
  Py.callable_attr tool_obj "execute" = Some execute ->
  direct_yields_nothing tool_obj args kwargs ctx ctx1 t1 ->
  (forall v ctx2,
      produces execute args kwargs ctx1 v ctx2 ->
      safe_invoke_tool tool_obj args kwargs ctx
      = (inr v, ctx2, t1 ++ [Called SExecute args kwargs]))
  /\ (forall e ctx2,
        throws execute args kwargs ctx1 e ctx2 ->
        safe_invoke_tool tool_obj args kwargs ctx
        = (inl e, ctx2, t1 ++ [Called SExecute args kwargs])).
Proof.
  intros Hr He Hd. split.
  - intros v ctx2 Hp. rewrite (execute_after_run _ _ _ _ _ _ _ Hd Hr He).
    now rewrite (call_and_normalize_produces _ _ _ _ _ _ _ Hp).
  - intros e ctx2 Ht. rewrite (execute_after_run _ _ _ _ _ _ _ Hd Hr He).
    now rewrite (call_and_normalize_throws _ _ _ _ _ _ _ Ht).
Qed.

Lemma execute_when_run_not_callable_witness :
  Py.getattr MoreSamples.run_is_data_tool "run" = Some (AValue (VInt 3))
  /\ (forall v ctx2,
         produces (Samples.returning (VStr "from execute")) [VStr "q"] []
                  new_context v ctx2 ->
         safe_invoke_tool MoreSamples.run_is_data_tool [VStr "q"] [] new_context
         = (inr v, ctx2, [] ++ [Called SExecute [VStr "q"] []]))
  /\ (forall e ctx2,
         throws (Samples.returning (VStr "from execute")) [VStr "q"] []
                new_context e ctx2 ->
         safe_invoke_tool MoreSamples.run_is_data_tool [VStr "q"] [] new_context
         = (inl e, ctx2, [] ++ [Called SExecute [VStr "q"] []])).
Proof.
  split; [reflexivity |].
  apply (execute_when_run_not_callable MoreSamples.run_is_data_tool
           (Samples.returning (VStr "from execute")) [VStr "q"] []
           new_context new_context []).
  - reflexivity.
  - reflexivity.
  - now apply direct_not_callable.
Defined.






Lemma rejecting_discards_all attempts :
  forall le ctx, exists le' t,
    all_discarded MoreSamples.rejecting attempts le ctx le' ctx t.
Proof.
  induction attempts as [|a rest IH]; intros le ctx.
  - eexists _, _. apply discarded_nil.
  - destruct a as [args kwargs | holder payload].
    + destruct (IH (Some (TypeError "arguments do not match the signature")) ctx)
        as (le' & t & H).
      eexists _, _. eapply discarded_failed; [reflexivity | exact H].
    + destruct (Py.json_serializable (VDict payload)) eqn:E.
      * destruct (IH (Some (TypeError "arguments do not match the signature")) ctx)
          as (le' & t & H).
        eexists _, _. eapply discarded_failed; [| exact H].
        unfold try_attempt, try_except, bind, run_attempt. rewrite E. reflexivity.
      * destruct (IH (Some (TypeError "Object is not JSON serializable")) ctx)
          as (le' & t & H).
        eexists _, _. eapply discarded_failed; [| exact H].
        unfold try_attempt, try_except, bind, run_attempt. rewrite E. reflexivity.
Qed.


(** X19.  After the attempts on [on_invoke_tool] were all discarded, the wrapped
    function is looked up under [func], [function], [__wrapped__], [_func],
    [_wrapped] in this order, attributes that are not callable are passed
    over, and the first callable one is called with the caller's arguments:
    what it yields is the result, and what it raises is raised to the
    caller. *)
Theorem wrapped_function_outcome
    tool_obj on_invoke payload args kwargs ctx ctx1 t1 le ctx2 t2
    names name rest u :
  direct_yields_nothing tool_obj args kwargs ctx ctx1 t1 ->
  Py.callable_attr tool_obj "run" = None ->
  Py.callable_attr tool_obj "execute" = None ->
  Py.callable_attr tool_obj "on_invoke_tool" = Some on_invoke ->
  build_payload tool_obj args kwargs = inr payload ->
  all_discarded on_invoke (positional_attempts args payload) None ctx1 le ctx2 t2 ->
  underlying_attrs = names ++ name :: rest ->
  (forall n, In n names -> Py.callable_attr tool_obj n = None) ->
  Py.callable_attr tool_obj name = Some u ->
  (forall v ctx3,
      produces u args kwargs ctx2 v ctx3 ->
      safe_invoke_tool tool_obj args kwargs ctx
      = (inr v, ctx3, t1 ++ t2 ++ [Called (SUnderlying name) args kwargs]))
  /\ (forall e ctx3,
        throws u args kwargs ctx2 e ctx3 ->
        safe_invoke_tool tool_obj args kwargs ctx
        = (inl e, ctx3, t1 ++ t2 ++ [Called (SUnderlying name) args kwargs])).
Proof.
  intros Hd Hr He Ho Hp Hall Hsplit Hnone Hu.
  assert (E : safe_invoke_tool tool_obj args kwargs ctx
              = let '(r, ctx3, t3) :=
                  call_and_normalize (SUnderlying name) u args kwargs ctx2 in
                (r, ctx3, t1 ++ t2 ++ t3)).
  { rewrite (safe_invoke_tool_after_direct _ _ _ _ _ _ Hd).
    unfold named_methods, on_invoke_block. rewrite Hr, He, Ho, Hp.
    unfold bind. rewrite (run_attempts_all_discarded _ _ _ _ _ _ _ Hall).
    unfold after_on_invoke. rewrite Hsplit.
    rewrite (call_underlying_first _ _ _ _ _ _ Hu Hnone).
    now destruct (call_and_normalize (SUnderlying name) u args kwargs ctx2)
      as [[r c3] t3]. }
  split.
  - intros v ctx3 H. rewrite E.
    now rewrite (call_and_normalize_produces _ _ _ _ _ _ _ H).
  - intros e ctx3 H. rewrite E.
    now rewrite (call_and_normalize_throws _ _ _ _ _ _ _ H).
Qed.

Lemma wrapped_function_outcome_witness :
  exists t2 : list call_event,
    (forall v ctx3,
        produces (Samples.async_returning (VStr "inner")) [VRunCtx; VStr "ABC123"] []
                 new_context v ctx3 ->
        safe_invoke_tool MoreSamples.second_wrapper_tool [VRunCtx; VStr "ABC123"] []
                         new_context
        = (inr v, ctx3,
           [] ++ t2 ++ [Called (SUnderlying "function") [VRunCtx; VStr "ABC123"] []]))
    /\ (forall e ctx3,
          throws (Samples.async_returning (VStr "inner")) [VRunCtx; VStr "ABC123"] []
                 new_context e ctx3 ->
          safe_invoke_tool MoreSamples.second_wrapper_tool [VRunCtx; VStr "ABC123"] []
                           new_context
          = (inl e, ctx3,
             [] ++ t2 ++ [Called (SUnderlying "function") [VRunCtx; VStr "ABC123"] []])).
Proof.
  destruct (rejecting_discards_all
              (positional_attempts [VRunCtx; VStr "ABC123"]
                                   [("confirmation_number", VStr "ABC123")])
              None new_context) as (le & t2 & Hall).
  exists t2.
  apply (wrapped_function_outcome MoreSamples.second_wrapper_tool MoreSamples.rejecting
           [("confirmation_number", VStr "ABC123")]
           [VRunCtx; VStr "ABC123"] [] new_context new_context [] le new_context t2
           ["func"] "function" ["__wrapped__"; "_func"; "_wrapped"]).
  - now apply direct_not_callable.
  - reflexivity.
  - reflexivity.
  - reflexivity.
  - reflexivity.
  - exact Hall.
  - reflexivity.
  - intros n [<- | []]. reflexivity.
  - reflexivity.
Defined.

(** ** What the resolver itself does to the context: nothing *)

Lemma keeps_ret {A} I (a : A) : keeps I (ret a).
Proof. intros ctx r ctx' t HI H. injection H as _ <- _. exact HI. Qed.

Lemma keeps_raise {A} I (e : exn) : keeps I (@raise A e).
Proof. intros ctx r ctx' t HI H. injection H as _ <- _. exact HI. Qed.

Lemma keeps_bind {A B} I (m : M A) (k : A -> M B) :
  keeps I m -> (forall a, keeps I (k a)) -> keeps I (bind m k).
Proof.
  intros Hm Hk ctx r ctx' t HI. unfold bind.
  destruct (m ctx) as [[[e | a] c1] t1] eqn:E.
  - intros H. injection H as _ <- _. exact (Hm _ _ _ _ HI E).
  - destruct (k a c1) as [[r2 c2] t2] eqn:E2.
    intros H. injection H as _ <- _.
    exact (Hk a _ _ _ _ (Hm _ _ _ _ HI E) E2).
Qed.

Lemma keeps_try_except {A} I (m : M A) (h : exn -> M A) :
  keeps I m -> (forall e, keeps I (h e)) -> keeps I (try_except m h).
Proof.
  intros Hm Hh ctx r ctx' t HI. unfold try_except.
  destruct (m ctx) as [[[e | a] c1] t1] eqn:E.
  - destruct (h e c1) as [[r2 c2] t2] eqn:E2.
    intros H. injection H as _ <- _.
    exact (Hh e _ _ _ _ (Hm _ _ _ _ HI E) E2).
  - intros H. injection H as _ <- _. exact (Hm _ _ _ _ HI E).
Qed.

(** A call followed by whatever is done with a value, the coroutine being
    awaited at once. *)
Lemma keeps_call_then {B} I sl c args kwargs
      (on_value : value -> M B) (on_awaited : value -> M B) :
  callable_keeps I c ->
  (forall v, keeps I (on_value v)) ->
  (forall v, keeps I (on_awaited v)) ->
  keeps I (bind (call sl c args kwargs)
                (fun res => match res with
                            | RValue v => on_value v
                            | RCoroutine co => bind (await co) on_awaited
                            end)).
Proof.
  intros Hc Hv Ha ctx r ctx' t HI. unfold bind, call, await.
  specialize (Hc args kwargs ctx HI).
  destruct (accepts c args kwargs).
  - destruct (body c args kwargs ctx) as [[e | [v | co]] c1].
    + intros H. injection H as _ <- _. exact Hc.
    + destruct (on_value v c1) as [[r2 c2] t2] eqn:E2.
      intros H. injection H as _ <- _. exact (Hv v _ _ _ _ Hc E2).
    + destruct Hc as [_ Hco].
      destruct (co c1) as [[e | v] c2]; cbn [snd] in Hco.
      * intros H. injection H as _ <- _. exact Hco.
      * destruct (on_awaited v c2) as [[r3 c3] t3] eqn:E3.
        intros H. injection H as _ <- _. exact (Ha v _ _ _ _ Hco E3).
  - intros H. injection H as _ <- _. exact HI.
Qed.

Lemma keeps_call_and_normalize I sl c args kwargs :
  callable_keeps I c -> keeps I (call_and_normalize sl c args kwargs).
Proof.
  intros Hc ctx r ctx' t HI H.
  apply (keeps_call_then I sl c args kwargs ret ret Hc
           (fun v => keeps_ret I v) (fun v => keeps_ret I v) ctx r ctx' t HI).
  rewrite <- H. unfold call_and_normalize, bind, normalize, await, ret.
  destruct (call sl c args kwargs ctx) as [[[e | [v | co]] c1] t1];
    try reflexivity.
  destruct (co c1) as [[e | v] c2]; cbn; now rewrite ?app_nil_r.
Qed.

Lemma keeps_try_attempt I on_invoke a :
  callable_keeps I on_invoke -> keeps I (try_attempt on_invoke a).
Proof.
  intros Hc. unfold try_attempt.
  apply keeps_try_except; [| intros e; apply keeps_ret].
  assert (Hcall : forall args kwargs,
             keeps I (bind (call SOnInvoke on_invoke args kwargs)
                           (fun result =>
                              match result with
                              | RValue VNone => ret ReturnedNone
                              | RValue v => ret (Won v)
                              | RCoroutine co => bind (await co) (fun v => ret (Won v))
                              end))).
  { intros args kwargs.
    apply (keeps_call_then I SOnInvoke on_invoke args kwargs
             (fun v => match v with VNone => ret ReturnedNone | _ => ret (Won v) end)
             (fun v => ret (Won v)) Hc).
    - intros v. destruct v; apply keeps_ret.
    - intros v. apply keeps_ret. }
  destruct a as [args kwargs | holder payload]; cbn [run_attempt].
  - exact (Hcall args kwargs).
  - destruct (Py.json_serializable (VDict payload)).
    + exact (Hcall [holder; VJson payload] []).
    + intros ctx r ctx' t HI H. unfold bind, raise in H.
      injection H as _ <- _. exact HI.
Qed.

Lemma keeps_run_attempts I on_invoke attempts :
  callable_keeps I on_invoke ->
  forall le, keeps I (run_attempts on_invoke attempts le).
Proof.
  intros Hc. induction attempts as [|a rest IH]; intros le; cbn [run_attempts].
  - apply keeps_ret.
  - apply keeps_bind; [now apply keeps_try_attempt |].
    intros [v | | e]; [apply keeps_ret | apply IH | apply IH].
Qed.

Lemma keeps_call_underlying I tool_obj names args kwargs :
  tool_keeps I tool_obj -> keeps I (call_underlying tool_obj names args kwargs).
Proof.
  intros [_ Hattr]. induction names as [|n names IH]; cbn [call_underlying].
  - apply keeps_raise.
  - destruct (Py.callable_attr tool_obj n) as [u |] eqn:E; [| exact IH].
    apply keeps_call_and_normalize. now apply (Hattr n).
Qed.

Lemma keeps_named_methods I tool_obj args kwargs :
  tool_keeps I tool_obj -> keeps I (named_methods tool_obj args kwargs).
Proof.
  intros Hk. pose proof Hk as [_ Hattr]. unfold named_methods.
  destruct (Py.callable_attr tool_obj "run") as [run |] eqn:Er.
  { apply keeps_call_and_normalize. now apply (Hattr "run"%string). }
  destruct (Py.callable_attr tool_obj "execute") as [ex |] eqn:Ee.
  { apply keeps_call_and_normalize. now apply (Hattr "execute"%string). }
  unfold on_invoke_block.
  destruct (Py.callable_attr tool_obj "on_invoke_tool") as [oi |] eqn:Eo.
  - destruct (build_payload tool_obj args kwargs) as [e | payload];
      [apply keeps_raise |].
    apply keeps_bind.
    + apply keeps_run_attempts. now apply (Hattr "on_invoke_tool"%string).
    + intros [v | le]; [apply keeps_ret |].
      cbn [after_on_invoke]. now apply keeps_call_underlying.
  - apply keeps_raise.
Qed.

Lemma safe_invoke_tool_keeps_invariant_aux I tool_obj args kwargs :
  tool_keeps I tool_obj -> keeps I (safe_invoke_tool tool_obj args kwargs).
Proof.
  intros Hk. unfold safe_invoke_tool. apply keeps_bind.
  - unfold direct_call. apply keeps_try_except; [| intros e; apply keeps_ret].
    destruct (tool_call tool_obj) as [c |] eqn:Ec; [| apply keeps_ret].
    apply keeps_bind; [| intros v; apply keeps_ret].
    apply keeps_call_and_normalize. now apply (proj1 Hk).
  - intros [v |]; [apply keeps_ret | now apply keeps_named_methods].
Qed.

(** X23.  [safe_invoke_tool] writes nothing to the context of its own: a property
    of the context that everything callable on the tool keeps holds after
    the call, however it ends and whichever strategies were tried. *)
Theorem safe_invoke_tool_keeps_invariant
    (I : AirlineAgentContext -> Prop) tool_obj args kwargs ctx r ctx' t :
  tool_keeps I tool_obj ->
  I ctx ->
  safe_invoke_tool tool_obj args kwargs ctx = (r, ctx', t) ->
  I ctx'.
Proof.
  intros Hk HI H.
  exact (safe_invoke_tool_keeps_invariant_aux I tool_obj args kwargs Hk
           ctx r ctx' t HI H).
Qed.

Lemma seat_run_keeps_passenger rnd p :
  tool_keeps (fun c => passenger_name c = p) (MoreSamples.seat_run_tool rnd).
Proof.
  split.
  - intros c H. discriminate H.
  - intros name c H. unfold Py.callable_attr, Py.getattr in H. cbn in H.
    destruct (String.eqb name "run"); [| discriminate].
    injection H as <-. intros args kwargs ctx HI. cbn.
    destruct args as [|[] [|[] [|[] [|]]]]; try exact HI.
    destruct ctx as [pp cn sn [f |]]; exact HI.
Qed.

Lemma safe_invoke_tool_keeps_invariant_witness :
  safe_invoke_tool (MoreSamples.seat_run_tool 417)
                   [VRunCtx; VStr "ABC123"; VStr "12A"] [] new_context
  = (inr (VStr (seat_message "12A" "ABC123" (generated_flight 417))),
     mkContext None (Some "ABC123"%string) (Some "12A"%string)
               (Some (generated_flight 417)),
     [Called SRun [VRunCtx; VStr "ABC123"; VStr "12A"] []])
  /\ passenger_name
       (mkContext None (Some "ABC123"%string) (Some "12A"%string)
                  (Some (generated_flight 417)))
     = None.
Proof.
  split; [reflexivity |].
  apply (safe_invoke_tool_keeps_invariant
           (fun c => passenger_name c = None) (MoreSamples.seat_run_tool 417)
           [VRunCtx; VStr "ABC123"; VStr "12A"] [] new_context
           (inr (VStr (seat_message "12A" "ABC123" (generated_flight 417))))
           _
           [Called SRun [VRunCtx; VStr "ABC123"; VStr "12A"] []]).
  - apply seat_run_keeps_passenger.
  - reflexivity.
  - reflexivity.
Defined.

(** ** How many calls *)

Lemma call_and_normalize_one_call sl c args kwargs ctx r ctx' t :
  call_and_normalize sl c args kwargs ctx = (r, ctx', t) ->
  t = [Called sl args kwargs].
Proof.
  destruct (produces_or_throws c args kwargs ctx) as [(v & cx & H) | (e & cx & H)].
  - rewrite (call_and_normalize_produces sl _ _ _ _ _ _ H).
    intros E. now injection E as _ _ <-.
  - rewrite (call_and_normalize_throws sl _ _ _ _ _ _ H).
    intros E. now injection E as _ _ <-.
Qed.

Lemma direct_call_one_call tool_obj args kwargs ctx r ctx' t :
  direct_call tool_obj args kwargs ctx = (r, ctx', t) -> length t <= 1.
Proof.
  unfold direct_call, try_except, bind.
  destruct (tool_call tool_obj) as [c |].
  - destruct (call_and_normalize SDirect c args kwargs ctx) as [[[e | v] cx] t1] eqn:E;
      apply call_and_normalize_one_call in E; subst t1;
      intros H; injection H as _ _ <-; cbn; lia.
  - intros H; injection H as _ _ <-. cbn; lia.
Qed.

Lemma call_underlying_one_call tool_obj names args kwargs :
  forall ctx r ctx' t,
    call_underlying tool_obj names args kwargs ctx = (r, ctx', t) -> length t <= 1.
Proof.
  induction names as [|n names IH]; intros ctx r ctx' t; cbn [call_underlying].
  - intros H; injection H as _ _ <-. cbn; lia.
  - destruct (Py.callable_attr tool_obj n) as [u |]; [| apply IH].
    intros H. apply call_and_normalize_one_call in H. subst t. cbn; lia.
Qed.

Lemma named_methods_calls tool_obj args kwargs ctx r ctx' t :
  named_methods tool_obj args kwargs ctx = (r, ctx', t) ->
  length t <= 10
  /\ (Py.callable_attr tool_obj "run" <> None -> length t = 1).
Proof.
  unfold named_methods.
  destruct (Py.callable_attr tool_obj "run") as [run |].
  { intros H. apply call_and_normalize_one_call in H. subst t. cbn. split; [lia | auto]. }
  intros H. split; [| intros Hn; now elim Hn]. revert H.
  destruct (Py.callable_attr tool_obj "execute") as [ex |].
  { intros H. apply call_and_normalize_one_call in H. subst t. cbn. lia. }
  unfold on_invoke_block.
  destruct (Py.callable_attr tool_obj "on_invoke_tool") as [oi |].
  - destruct (build_payload tool_obj args kwargs) as [e | payload].
    + intros H; injection H as _ _ <-. cbn; lia.
    + unfold bind.
      destruct (run_attempts oi (positional_attempts args payload) None ctx)
        as [[[e | [v | le]] c1] t1] eqn:E;
        apply run_attempts_one_pass in E;
        pose proof (positional_attempts_at_most_nine args payload) as Hlen.
      * intros H; injection H as _ _ <-. lia.
      * cbn. intros H; injection H as _ _ <-. rewrite app_nil_r. lia.
      * destruct (after_on_invoke tool_obj (Some le) args kwargs c1)
          as [[r2 c2] t2] eqn:E2.
        cbn [after_on_invoke] in E2. apply call_underlying_one_call in E2.
        intros H; injection H as _ _ <-. rewrite length_app. lia.
  - intros H; injection H as _ _ <-. cbn; lia.
Qed.

(** X24.  One invocation makes eleven calls at most (the direct call, nine
    attempts on [on_invoke_tool], one wrapped function), and two at most
    when the tool has a callable [run]: nothing is called in a loop and
    nothing is called again after it answered. *)
Theorem safe_invoke_tool_call_bound tool_obj args kwargs ctx r ctx' t :
  safe_invoke_tool tool_obj args kwargs ctx = (r, ctx', t) ->
  length t <= 11
  /\ (Py.callable_attr tool_obj "run" <> None -> length t <= 2).
Proof.
  unfold safe_invoke_tool, bind.
  destruct (direct_call tool_obj args kwargs ctx) as [[[e | [v |]] c1] t1] eqn:Ed;
    apply direct_call_one_call in Ed.
  - intros H; injection H as _ _ <-. split; intros; lia.
  - cbn. intros H; injection H as _ _ <-. rewrite app_nil_r. split; intros; lia.
  - destruct (named_methods tool_obj args kwargs c1) as [[r2 c2] t2] eqn:En.
    apply named_methods_calls in En as [H10 H1].
    intros H; injection H as _ _ <-. rewrite length_app. split.
    + lia.
    + intros Hr. specialize (H1 Hr). lia.
Qed.

Lemma safe_invoke_tool_call_bound_witness :
  length [Called SDirect [VRunCtx; VStr "ABC123"] [];
          Called SRun [VRunCtx; VStr "ABC123"] []] <= 11
  /\ (Py.callable_attr Samples.failing_run_tool "run" <> None ->
      length [Called SDirect [VRunCtx; VStr "ABC123"] [];
              Called SRun [VRunCtx; VStr "ABC123"] []] <= 2).
Proof.
  apply (safe_invoke_tool_call_bound Samples.failing_run_tool
           [VRunCtx; VStr "ABC123"] [] new_context
           (inl (OtherException "RuntimeError" "run failed")) new_context).
  reflexivity.
Defined.

(** ** The request loop *)

Lemma keeps_guarded_request I seat_tool faq_tool q :
  tool_keeps I seat_tool -> tool_keeps I faq_tool ->
  keeps I (guarded_request seat_tool faq_tool q).
Proof.
  intros Hs Hf. unfold guarded_request.
  apply keeps_try_except; [| intros e; apply keeps_ret].
  unfold handle_request.
  destruct (PyStr.any_in seat_keywords (PyStr.lower q)).
  - apply keeps_bind; [| intros v; apply keeps_ret].
    intros ctx r ctx' t HI H.
    exact (safe_invoke_tool_keeps_invariant_aux I seat_tool _ _ Hs ctx r ctx' t HI H).
  - apply keeps_bind; [| intros v; apply keeps_ret].
    intros ctx r ctx' t HI H.
    exact (safe_invoke_tool_keeps_invariant_aux I faq_tool _ _ Hf ctx r ctx' t HI H).
Qed.

(** X25.  The loop writes nothing to the context of its own either: a property
    that the callables of both tools keep holds after any list of queries,
    failed requests included. *)
Theorem request_loop_keeps_invariant
    (I : AirlineAgentContext -> Prop) seat_tool faq_tool queries ctx r ctx' t :
  tool_keeps I seat_tool ->
  tool_keeps I faq_tool ->
  I ctx ->
  request_loop seat_tool faq_tool queries ctx = (r, ctx', t) ->
  I ctx'.
Proof.
  intros Hs Hf. revert ctx r ctx' t.
  change (keeps I (request_loop seat_tool faq_tool queries)).
  induction queries as [|q rest IH]; cbn [request_loop].
  - apply keeps_ret.
  - apply keeps_bind; [now apply keeps_guarded_request |].
    intros line. apply keeps_bind; [exact IH | intros lines; apply keeps_ret].
Qed.

Lemma faq_tool_keeps_all I : tool_keeps I Samples.faq_tool.
Proof.
  split.
  - intros c H. injection H as <-. intros args kwargs ctx HI. cbn.
    destruct args as [|[] [|]]; exact HI.
  - intros name c H. discriminate H.
Qed.

Lemma request_loop_keeps_invariant_witness :
  request_loop (MoreSamples.seat_run_tool 417) Samples.faq_tool
               ["I want to change my seat"; "Do you have wifi?"] new_context
  = (inr [SeatAgentSays
            (VStr (seat_message "12A" "ABC123" (generated_flight 417)));
          FaqAgentSays (VStr wifi_answer)],
     mkContext None (Some "ABC123"%string) (Some "12A"%string)
               (Some (generated_flight 417)),
     [Called SRun [VRunCtx; VStr "ABC123"; VStr "12A"] [];
      Called SDirect [VStr "Do you have wifi?"] []])
  /\ passenger_name
       (mkContext None (Some "ABC123"%string) (Some "12A"%string)
                  (Some (generated_flight 417)))
     = None.
Proof.
  split; [vm_compute; reflexivity |].
  apply (request_loop_keeps_invariant
           (fun c => passenger_name c = None)
           (MoreSamples.seat_run_tool 417) Samples.faq_tool
           ["I want to change my seat"; "Do you have wifi?"]%string new_context
           (inr [SeatAgentSays
                   (VStr (seat_message "12A" "ABC123" (generated_flight 417)));
                 FaqAgentSays (VStr wifi_answer)])
           _
           [Called SRun [VRunCtx; VStr "ABC123"; VStr "12A"] [];
            Called SDirect [VStr "Do you have wifi?"] []]).
  - apply seat_run_keeps_passenger.
  - apply faq_tool_keeps_all.
  - reflexivity.
  - vm_compute; reflexivity.
Defined.

(** X27.  Whether a query goes to the seat tool is decided by the word [seat]
    alone, in any case of letters: the two longer keywords of the loop have
    it inside.  The seat tool is then called with the context, ABC123 and
    12A whatever the query says; any other query goes to the FAQ tool as it
    was typed. *)
Theorem routing_decided_by_seat seat_tool faq_tool (q : string) :
  PyStr.any_in seat_keywords (PyStr.lower q)
  = PyStr.contains "seat" (PyStr.lower q)
  /\ handle_request seat_tool faq_tool q
     = if PyStr.contains "seat" (PyStr.lower q)
       then bind (safe_invoke_tool seat_tool
                    [VRunCtx; VStr "ABC123"; VStr "12A"] [])
                 (fun resp => ret (SeatAgentSays resp))
       else bind (safe_invoke_tool faq_tool [VStr q] [])
                 (fun resp => ret (FaqAgentSays resp)).
Proof.
  assert (E : PyStr.any_in seat_keywords (PyStr.lower q)
              = PyStr.contains "seat" (PyStr.lower q)).
  { unfold seat_keywords. rewrite !any_in_cons.
    destruct (PyStr.contains "seat" (PyStr.lower q)) eqn:E0; [reflexivity |].
    cbn [orb].
    destruct (PyStr.contains "change my seat" (PyStr.lower q)) eqn:E1.
    { rewrite (contains_trans "seat" "change my seat" _ eq_refl E1) in E0.
      discriminate. }
    destruct (PyStr.contains "seat change" (PyStr.lower q)) eqn:E2.
    { rewrite (contains_trans "seat" "seat change" _ eq_refl E2) in E0.
      discriminate. }
    reflexivity. }
  split; [exact E |]. unfold handle_request. now rewrite E.
Qed.

(** ** More on errors and on the usual path *)



(** X22.  Without a callable [on_invoke_tool] (and without [run] and [execute])
    the call ends in [UnboundLocalError] for [last_exc] as soon as the
    direct call gave nothing: also when the tool is callable and its own
    call raised, whose exception is then lost, and also when the tool wraps
    a function. *)
Theorem missing_on_invoke_raises_unbound_local
    tool_obj args kwargs ctx ctx1 t1 :
  direct_yields_nothing tool_obj args kwargs ctx ctx1 t1 ->
  Py.callable_attr tool_obj "run" = None ->
  Py.callable_attr tool_obj "execute" = None ->
  Py.callable_attr tool_obj "on_invoke_tool" = None ->
  safe_invoke_tool tool_obj args kwargs ctx
  = (inl (UnboundLocalError "last_exc"), ctx1, t1).
Proof.
  intros Hd Hr He Ho.
  rewrite (safe_invoke_tool_after_direct _ _ _ _ _ _ Hd).
  unfold named_methods, on_invoke_block. rewrite Hr, He, Ho. cbn.
  now rewrite app_nil_r.
Qed.

Lemma missing_on_invoke_raises_unbound_local_witness :
  safe_invoke_tool Samples.faq_tool [VRunCtx; VStr "wifi?"] [] new_context
  = (inl (UnboundLocalError "last_exc"), new_context,
     [Called SDirect [VRunCtx; VStr "wifi?"] []]).
Proof.
  apply (missing_on_invoke_raises_unbound_local Samples.faq_tool
           [VRunCtx; VStr "wifi?"] [] new_context new_context).
  - apply (direct_raised _ _ _ _ Samples.question_only
             (TypeError "arguments do not match the signature"));
      [reflexivity | now apply throws_binding].
  - reflexivity.
  - reflexivity.
  - reflexivity.
Defined.

(** X16.  The usual path of a tool that has only [on_invoke_tool]: when it
    answers the context holder and the payload as JSON text with a value
    that is not [None], that value is the result after this one call; the
    holder carries the caller's context, or [None] without one. *)
Theorem json_attempt_answers_first
    tool_obj on_invoke payload args kwargs ctx ctx1 t1 v ctx2 :
  direct_yields_nothing tool_obj args kwargs ctx ctx1 t1 ->
  Py.callable_attr tool_obj "run" = None ->
  Py.callable_attr tool_obj "execute" = None ->
  Py.callable_attr tool_obj "on_invoke_tool" = Some on_invoke ->
  build_payload tool_obj args kwargs = inr payload ->
  Py.json_serializable (VDict payload) = true ->
  produces on_invoke
           [VDummyToolCtx (if has_run_ctx args then VRunCtx else VNone);
            VJson payload] [] ctx1 v ctx2 ->
  v <> VNone ->
  safe_invoke_tool tool_obj args kwargs ctx
  = (inr v, ctx2,
     t1 ++ [Called SOnInvoke
              [VDummyToolCtx (if has_run_ctx args then VRunCtx else VNone);
               VJson payload] []]).
Proof.
  intros Hd Hr He Ho Hp Hj Hprod Hv.
  destruct (payload_goes_first args payload) as [rest Hrest].
  rewrite run_ctx_arg_spec in Hrest.
  pose proof (try_attempt_produces _ _ _ _ _ _ Hprod Hv) as Hcall.
  assert (Hwin : try_attempt on_invoke
                   (AttemptJson
                      (VDummyToolCtx (if has_run_ctx args then VRunCtx else VNone))
                      payload) ctx1
                 = (inr (Won v), ctx2,
                    [Called SOnInvoke
                       [VDummyToolCtx (if has_run_ctx args then VRunCtx else VNone);
                        VJson payload] []])).
  { unfold try_attempt, run_attempt in *. now rewrite Hj. }
  rewrite (on_invoke_after_named_methods tool_obj on_invoke payload args kwargs
             ctx ctx1 t1 [] _ _ None ctx1 [] v ctx2 _
             Hd Hr He Ho Hp Hrest (discarded_nil _ _ _) Hwin).
  reflexivity.
Qed.

Lemma json_attempt_answers_first_witness :
  safe_invoke_tool Samples.two_parameter_tool
                   [VRunCtx; VStr "ABC123"; VStr "12A"] [] new_context
  = (inr (VStr "ok"), new_context,
     [] ++ [Called SOnInvoke
              [VDummyToolCtx
                 (if has_run_ctx [VRunCtx; VStr "ABC123"; VStr "12A"]
                  then VRunCtx else VNone);
               VJson [("confirmation_number", VStr "ABC123");
                      ("new_seat", VStr "12A")]] []]).
Proof.
  apply (json_attempt_answers_first Samples.two_parameter_tool
           (Samples.returning (VStr "ok"))
           [("confirmation_number", VStr "ABC123"); ("new_seat", VStr "12A")]
           [VRunCtx; VStr "ABC123"; VStr "12A"] [] new_context new_context).
  - now apply direct_not_callable.
  - reflexivity.
  - reflexivity.
  - reflexivity.
  - reflexivity.
  - reflexivity.
  - apply produces_sync; reflexivity.
  - discriminate.
Defined.
